(** * product-catalog-service: the gRPC adapter of [internal/server/server.go]

    A shallow embedding of the gRPC server adapter and of the error
    translation it performs.  The source file holds two listings of package
    [server]: the first (lines 1-172) turns every collaborator failure into
    a status-coded error, the second (lines 174-337) logs some failures and
    hands them back as they are.  Both are embedded, as [server] and
    [server_dup]. *)

From Stdlib Require Import PrimFloat Ascii String.
From stdpp Require Import base strings list gmap.

Open Scope string_scope.
Set Warnings "-inexact-float".

(** ** Package [codes] of gRPC: the canonical status codes. *)
Module codes.

Inductive Code : Set :=
| OK | Canceled | Unknown | InvalidArgument | DeadlineExceeded | NotFound
| AlreadyExists | PermissionDenied | ResourceExhausted | FailedPrecondition
| Aborted | OutOfRange | Unimplemented | Internal | Unavailable | DataLoss
| Unauthenticated.

#[export] Instance Code_eq_dec : EqDecision Code.
Proof. solve_decision. Defined.

(** [Code.String], used when a status error is printed. *)
Definition String (c : Code) : string :=
  match c with
  | OK => "OK" | Canceled => "Canceled" | Unknown => "Unknown"
  | InvalidArgument => "InvalidArgument"
  | DeadlineExceeded => "DeadlineExceeded" | NotFound => "NotFound"
  | AlreadyExists => "AlreadyExists"
  | PermissionDenied => "PermissionDenied"
  | ResourceExhausted => "ResourceExhausted"
  | FailedPrecondition => "FailedPrecondition" | Aborted => "Aborted"
  | OutOfRange => "OutOfRange" | Unimplemented => "Unimplemented"
  | Internal => "Internal" | Unavailable => "Unavailable"
  | DataLoss => "DataLoss" | Unauthenticated => "Unauthenticated"
  end.

End codes.

(** ** Package [primitive] of the BSON driver: object identifiers.

    The entity's [ID] field is only used through its [Hex] method; an
    [ObjectID] is an array of twelve bytes and [Hex] prints each byte as two
    lower-case hexadecimal digits. *)
Module primitive.

Definition ObjectID : Type := list Byte.byte.

Definition wf (id : ObjectID) : Prop := length id = 12.

Definition hextable : string := "0123456789abcdef".

Definition hexdigit (n : nat) : ascii :=
  match String.get n hextable with
  | Some c => c
  | None => "0"%char
  end.

Fixpoint EncodeToString (src : list Byte.byte) : string :=
  match src with
  | [] => ""
  | b :: rest =>
      let v := Byte.to_nat b in
      String.String (hexdigit (v / 16))
        (String.String (hexdigit (v mod 16)) (EncodeToString rest))
  end.

Definition Hex (id : ObjectID) : string := EncodeToString id.

Definition NilObjectID : ObjectID := repeat Byte.x00 12.

End primitive.

(** ** Errors

    A Go [error] reaching the adapter is one of: a package-level error value
    (the five sentinels of package [service], the two of package [context]),
    some other plain error, an error wrapping another one ([fmt.Errorf] with
    the verb [%w], which stores the finished message next to the wrapped
    error), or a gRPC status error built by [status.Error]. *)

(** Package [service]: the sentinel values the adapter tests for. *)
Inductive sentinel : Set :=
| ErrNotFound | ErrInvalidSKU | ErrInvalidName | ErrInvalidPrice
| ErrInvalidStockQty.

(** Package [context]: the two causes a finished context reports. *)
Inductive ctx_cause : Set := Canceled | DeadlineExceeded.

(** The package-level error values, the only possible targets of
    [errors.Is] in this development: they are compared by identity. *)
Inductive errvar : Set :=
| service_var (s : sentinel)
| context_var (c : ctx_cause).

Coercion service_var : sentinel >-> errvar.
Coercion context_var : ctx_cause >-> errvar.

#[export] Instance sentinel_eq_dec : EqDecision sentinel.
Proof. solve_decision. Defined.
#[export] Instance ctx_cause_eq_dec : EqDecision ctx_cause.
Proof. solve_decision. Defined.
#[export] Instance errvar_eq_dec : EqDecision errvar.
Proof. solve_decision. Defined.

Inductive error : Type :=
| errValue (v : errvar)
| errorString (s : string)
| wrapError (msg : string) (err : error)
| statusError (c : codes.Code) (msg : string).

(** What other packages fix and this listing does not show: the state the
    methods of [service.Service] work on, the text of the five sentinel
    errors, and the shape of the update request, which the adapter hands
    over without looking into it. *)
Class Externals : Type := {
  Store : Type;
  sentinel_text : sentinel -> string;
  UpdateProductRequest : Type
}.

Section Errors.
Context `{Externals}.

(** The [Error] method. *)
Definition Error (e : error) : string :=
  match e with
  | errValue (service_var s) => sentinel_text s
  | errValue (context_var Canceled) => "context canceled"
  | errValue (context_var DeadlineExceeded) => "context deadline exceeded"
  | errorString s => s
  | wrapError msg _ => msg
  | statusError c msg =>
      "rpc error: code = " ++ codes.String c ++ " desc = " ++ msg
  end.

(** [fmt.Sprintf] at its two call sites: a literal prefix followed by
    [%v] applied to a non-nil error, which prints [err.Error()]. *)
Definition Sprintf_v (prefix : string) (err : error) : string :=
  prefix ++ Error err.

End Errors.

(** [errors.Is] against a package-level value: walk the chain of wrapped
    errors and compare each link with the target. *)
Fixpoint errors_Is (err : error) (target : errvar) : bool :=
  match err with
  | errValue v => bool_decide (v = target)
  | wrapError _ inner => errors_Is inner target
  | errorString _ | statusError _ _ => false
  end.

(** Package [status].  [Error c msg] yields a status error unless the code
    is [OK]; [FromError] finds the status an error carries, also through
    wrapping; [FromContextError] is what a context error, or any other error
    without a status, is turned into; [Code] is the code of an error as a
    caller holding the error value reads it. *)
Module status.

Definition Error (c : codes.Code) (msg : string) : option error :=
  match c with
  | codes.OK => None
  | _ => Some (statusError c msg)
  end.

Fixpoint FromError (e : error) : option codes.Code :=
  match e with
  | statusError c _ => Some c
  | wrapError _ inner => FromError inner
  | errValue _ | errorString _ => None
  end.

Definition FromContextError (e : error) : codes.Code :=
  if errors_Is e DeadlineExceeded then codes.DeadlineExceeded
  else if errors_Is e Canceled then codes.Canceled
  else codes.Unknown.

Definition Code (err : option error) : codes.Code :=
  match err with
  | None => codes.OK
  | Some e => default codes.Unknown (FromError e)
  end.

End status.

(** ** Package [context]

    A [context.Context] as a collaborator can observe it: [ctx.Err()] is nil
    while the call may go on, and one of the two causes once it is done. *)
Record Context : Set := { ctx_Err : option ctx_cause }.

(** ** Package [pb]: the wire messages.

    The generated code of the contract is not part of the listing; the
    messages have the fields the adapter reads and writes, each wire field
    of a product having the type of the entity field assigned to it.  Fields
    are named after the Go fields, prefixed by the message where two
    messages share a field name; a getter [GetX] is the projection, with the
    zero value for an absent optional field.  The filter of a listing is
    optional and the continuation token a string (section 4.1 and 3 of the
    specification). *)
Module pb.

Record Product : Type := {
  Id : string;
  Sku : string;
  Name : string;
  Description : string;
  Price : float;
  StockQuantity : Z;
  Category : string;
  ImageUrl : string;
  IsActive : bool;
  Attributes : gmap string string
}.

Record GetProductRequest : Type := { GetProductRequest_Id : string }.
Record GetProductResponse : Type :=
  { GetProductResponse_Product : option Product }.

Record ListProductsRequest : Type := {
  ListProductsRequest_Filter : option string;
  ListProductsRequest_Page : Z;
  ListProductsRequest_PageSize : Z
}.
Record ListProductsResponse : Type := {
  Products : list Product;
  NextPage : string
}.

Record CreateProductRequest : Type :=
  { CreateProductRequest_Product : option Product }.
Record CreateProductResponse : Type :=
  { CreateProductResponse_Product : option Product }.

Record UpdateProductResponse : Type :=
  { UpdateProductResponse_Product : option Product }.

Record DeleteProductRequest : Type := { DeleteProductRequest_Id : string }.
Inductive DeleteProductResponse : Type := Build_DeleteProductResponse.

Record GetProductBySKURequest : Type := { GetProductBySKURequest_Sku : string }.
Record GetProductBySKUResponse : Type :=
  { GetProductBySKUResponse_Product : option Product }.

Definition GetFilter (r : ListProductsRequest) : string :=
  match ListProductsRequest_Filter r with
  | Some f => f
  | None => ""
  end.

End pb.

(** ** Package [service]: the collaborator.

    Its code is not part of the listing.  Every method runs on the store,
    may change it, and hands back its results together with an [error] that
    is nil on success; the signatures are those of the six call sites.  The
    entity handed back with a nil error is a valid one (the adapter reads
    its fields without a nil test). *)
Module service.

(** Modelled from the spec: the declaration of the entity [service.Product]
    is missing from the listing.  Its fields are the ten the adapter reads;
    their types are those of section 3 of the specification: strings, a
    numeric price, an integer stock quantity, a boolean flag and a mapping
    from strings to strings in which insertion order is irrelevant.  The
    twelve-byte identifier is the one whose [Hex] method the adapter
    calls. *)
Record Product : Type := {
  ID : primitive.ObjectID;
  Sku : string;
  Name : string;
  Description : string;
  Price : float;
  StockQuantity : Z;
  Category : string;
  ImageURL : string;
  IsActive : bool;
  Attributes : gmap string string
}.

Record Service `{Externals} : Type := {
  GetProduct :
    Context -> string -> Store -> (Product * option error) * Store;
  ListProducts :
    Context -> string -> Z -> Z -> Store ->
    (list Product * string * option error) * Store;
  CreateProduct :
    Context -> option pb.Product -> Store ->
    (Product * option error) * Store;
  UpdateProduct :
    Context -> UpdateProductRequest -> Store ->
    (Product * option error) * Store;
  DeleteProduct :
    Context -> string -> Store -> option error * Store;
  GetProductBySKU :
    Context -> string -> Store -> (Product * option error) * Store
}.

End service.

(** ** Effects

    A call of the adapter runs in a world made of the collaborator's store
    and of the lines written through package [log]. *)
Section World.
Context `{Externals}.

Record World : Type := { store : Store; logged : list string }.

Definition M (A : Type) : Type := World -> A * World.

#[export] Instance M_ret : MRet M := fun A a w => (a, w).

#[export] Instance M_bind : MBind M :=
  fun A B f m w => let '(a, w') := m w in f a w'.

(** A call of a method of the collaborator. *)
Definition call {A : Type} (f : Store -> A * Store) : M A :=
  fun w =>
    let '(a, st) := f (store w) in
    (a, {| store := st; logged := logged w |}).

(** [log.Println(err)]: one more line, the text of the error. *)
Definition log_Println (err : error) : M unit :=
  fun w => (tt, {| store := store w; logged := app (logged w) [Error err] |}).

End World.

(** The adapter itself: a struct with the injected collaborator as its only
    field (the embedded [UnimplementedProductCatalogServiceServer] has no
    fields). *)
Record Server `{Externals} : Type := { service : service.Service }.

Definition NewProductCatalogServer `{Externals} (s : service.Service) : Server :=
  {| service := s |}.

(** ** The RPC surface

    The six methods are registered with the gRPC server, which hands each
    incoming call to the method of its name.  [rpc] is such a call with its
    request message, [message] the response message of any of them. *)
Inductive rpc `{Externals} : Type :=
| GetProductRPC (r : pb.GetProductRequest)
| ListProductsRPC (r : pb.ListProductsRequest)
| CreateProductRPC (r : pb.CreateProductRequest)
| UpdateProductRPC (r : UpdateProductRequest)
| DeleteProductRPC (r : pb.DeleteProductRequest)
| GetProductBySKURPC (r : pb.GetProductBySKURequest).

Inductive message : Type :=
| GetProductMsg (m : pb.GetProductResponse)
| ListProductsMsg (m : pb.ListProductsResponse)
| CreateProductMsg (m : pb.CreateProductResponse)
| UpdateProductMsg (m : pb.UpdateProductResponse)
| DeleteProductMsg (m : pb.DeleteProductResponse)
| GetProductBySKUMsg (m : pb.GetProductBySKUResponse).

(** ** First listing (lines 1-172): every failure is status-coded. *)
Module server.
Section Methods.
Context `{Externals}.

Definition GetProduct (s : Server) (ctx : Context) (r : pb.GetProductRequest)
  : M (option pb.GetProductResponse * option error) :=
  '(p, err) ← call (service.GetProduct (service s) ctx (pb.GetProductRequest_Id r));
  match err with
  | Some e =>
      if errors_Is e ErrNotFound
      then mret (None, status.Error codes.NotFound (Sprintf_v "pb not found: " e))
      else mret (None, status.Error codes.Internal (Error e))
  | None =>
      mret (Some {| pb.GetProductResponse_Product := Some {|
              pb.Id := primitive.Hex (service.ID p);
              pb.Sku := service.Sku p;
              pb.Name := service.Name p;
              pb.Description := service.Description p;
              pb.Price := service.Price p;
              pb.StockQuantity := service.StockQuantity p;
              pb.Category := service.Category p;
              pb.ImageUrl := service.ImageURL p;
              pb.IsActive := service.IsActive p;
              pb.Attributes := service.Attributes p |} |}, err)
  end.

Definition ListProducts (s : Server) (ctx : Context) (r : pb.ListProductsRequest)
  : M (option pb.ListProductsResponse * option error) :=
  let query := if String.eqb (pb.GetFilter r) "" then "" else pb.GetFilter r in
  '(products, nextPage, err) ←
    call (service.ListProducts (service s) ctx query
            (pb.ListProductsRequest_Page r) (pb.ListProductsRequest_PageSize r));
  match err with
  | Some e => mret (None, status.Error codes.Internal (Error e))
  | None =>
      let productList :=
        fold_left (fun productList p => app productList [ {|
              pb.Id := primitive.Hex (service.ID p);
              pb.Sku := service.Sku p;
              pb.Name := service.Name p;
              pb.Description := service.Description p;
              pb.Price := service.Price p;
              pb.StockQuantity := service.StockQuantity p;
              pb.Category := service.Category p;
              pb.ImageUrl := service.ImageURL p;
              pb.IsActive := service.IsActive p;
              pb.Attributes := service.Attributes p |} ]) products [] in
      mret (Some {| pb.Products := productList; pb.NextPage := nextPage |}, None)
  end.

Definition CreateProduct (s : Server) (ctx : Context) (r : pb.CreateProductRequest)
  : M (option pb.CreateProductResponse * option error) :=
  '(p, err) ← call (service.CreateProduct (service s) ctx (pb.CreateProductRequest_Product r));
  match err with
  | Some e =>
      if errors_Is e ErrInvalidSKU
         || errors_Is e ErrInvalidName
         || errors_Is e ErrInvalidPrice
         || errors_Is e ErrInvalidStockQty
      then mret (None, status.Error codes.InvalidArgument (Error e))
      else mret (None, status.Error codes.Internal (Error e))
  | None =>
      mret (Some {| pb.CreateProductResponse_Product := Some {|
              pb.Id := primitive.Hex (service.ID p);
              pb.Sku := service.Sku p;
              pb.Name := service.Name p;
              pb.Description := service.Description p;
              pb.Price := service.Price p;
              pb.StockQuantity := service.StockQuantity p;
              pb.Category := service.Category p;
              pb.ImageUrl := service.ImageURL p;
              pb.IsActive := service.IsActive p;
              pb.Attributes := service.Attributes p |} |}, err)
  end.

Definition UpdateProduct (s : Server) (ctx : Context) (r : UpdateProductRequest)
  : M (option pb.UpdateProductResponse * option error) :=
  '(p, err) ← call (service.UpdateProduct (service s) ctx r);
  match err with
  | Some e =>
      if errors_Is e ErrNotFound
      then mret (None, status.Error codes.NotFound (Sprintf_v "pb not found: " e))
      else if errors_Is e ErrInvalidSKU
              || errors_Is e ErrInvalidName
              || errors_Is e ErrInvalidPrice
              || errors_Is e ErrInvalidStockQty
      then mret (None, status.Error codes.InvalidArgument (Error e))
      else mret (None, status.Error codes.Internal (Error e))
  | None =>
      mret (Some {| pb.UpdateProductResponse_Product := Some {|
              pb.Id := primitive.Hex (service.ID p);
              pb.Sku := service.Sku p;
              pb.Name := service.Name p;
              pb.Description := service.Description p;
              pb.Price := service.Price p;
              pb.StockQuantity := service.StockQuantity p;
              pb.Category := service.Category p;
              pb.ImageUrl := service.ImageURL p;
              pb.IsActive := service.IsActive p;
              pb.Attributes := service.Attributes p |} |}, err)
  end.

Definition DeleteProduct (s : Server) (ctx : Context) (r : pb.DeleteProductRequest)
  : M (option pb.DeleteProductResponse * option error) :=
  err ← call (service.DeleteProduct (service s) ctx (pb.DeleteProductRequest_Id r));
  match err with
  | Some e => mret (None, status.Error codes.Internal (Error e))
  | None => mret (Some pb.Build_DeleteProductResponse, None)
  end.

Definition GetProductBySKU (s : Server) (ctx : Context) (r : pb.GetProductBySKURequest)
  : M (option pb.GetProductBySKUResponse * option error) :=
  '(p, err) ← call (service.GetProductBySKU (service s) ctx (pb.GetProductBySKURequest_Sku r));
  match err with
  | Some e =>
      if errors_Is e ErrNotFound
      then mret (None, status.Error codes.NotFound (Sprintf_v "p not found: " e))
      else mret (None, status.Error codes.Internal (Error e))
  | None =>
      mret (Some {| pb.GetProductBySKUResponse_Product := Some {|
              pb.Id := primitive.Hex (service.ID p);
              pb.Sku := service.Sku p;
              pb.Name := service.Name p;
              pb.Description := service.Description p;
              pb.Price := service.Price p;
              pb.StockQuantity := service.StockQuantity p;
              pb.Category := service.Category p;
              pb.ImageUrl := service.ImageURL p;
              pb.IsActive := service.IsActive p;
              pb.Attributes := service.Attributes p |} |}, None)
  end.

(** The method an incoming call is handed to. *)
Definition serve (s : Server) (ctx : Context) (q : rpc)
  : M (option message * option error) :=
  match q with
  | GetProductRPC r =>
      '(m, err) ← GetProduct s ctx r; mret (GetProductMsg <$> m, err)
  | ListProductsRPC r =>
      '(m, err) ← ListProducts s ctx r; mret (ListProductsMsg <$> m, err)
  | CreateProductRPC r =>
      '(m, err) ← CreateProduct s ctx r; mret (CreateProductMsg <$> m, err)
  | UpdateProductRPC r =>
      '(m, err) ← UpdateProduct s ctx r; mret (UpdateProductMsg <$> m, err)
  | DeleteProductRPC r =>
      '(m, err) ← DeleteProduct s ctx r; mret (DeleteProductMsg <$> m, err)
  | GetProductBySKURPC r =>
      '(m, err) ← GetProductBySKU s ctx r; mret (GetProductBySKUMsg <$> m, err)
  end.

End Methods.
End server.

(** ** Second listing (lines 174-337): failures the method does not
    classify are written to the log (except by the two lookups) and handed
    back as the collaborator gave them. *)
Module server_dup.
Section Methods.
Context `{Externals}.

Definition GetProduct (s : Server) (ctx : Context) (r : pb.GetProductRequest)
  : M (option pb.GetProductResponse * option error) :=
  '(p, err) ← call (service.GetProduct (service s) ctx (pb.GetProductRequest_Id r));
  match err with
  | Some e =>
      if errors_Is e ErrNotFound
      then mret (None, status.Error codes.NotFound (Sprintf_v "pb not found: " e))
      else mret (None, err)
  | None =>
      mret (Some {| pb.GetProductResponse_Product := Some {|
              pb.Id := primitive.Hex (service.ID p);
              pb.Sku := service.Sku p;
              pb.Name := service.Name p;
              pb.Description := service.Description p;
              pb.Price := service.Price p;
              pb.StockQuantity := service.StockQuantity p;
              pb.Category := service.Category p;
              pb.ImageUrl := service.ImageURL p;
              pb.IsActive := service.IsActive p;
              pb.Attributes := service.Attributes p |} |}, err)
  end.

Definition ListProducts (s : Server) (ctx : Context) (r : pb.ListProductsRequest)
  : M (option pb.ListProductsResponse * option error) :=
  let query := if String.eqb (pb.GetFilter r) "" then "" else pb.GetFilter r in
  '(products, nextPage, err) ←
    call (service.ListProducts (service s) ctx query
            (pb.ListProductsRequest_Page r) (pb.ListProductsRequest_PageSize r));
  match err with
  | Some e => log_Println e;; mret (None, err)
  | None =>
      let productList :=
        fold_left (fun productList p => app productList [ {|
              pb.Id := primitive.Hex (service.ID p);
              pb.Sku := service.Sku p;
              pb.Name := service.Name p;
              pb.Description := service.Description p;
              pb.Price := service.Price p;
              pb.StockQuantity := service.StockQuantity p;
              pb.Category := service.Category p;
              pb.ImageUrl := service.ImageURL p;
              pb.IsActive := service.IsActive p;
              pb.Attributes := service.Attributes p |} ]) products [] in
      mret (Some {| pb.Products := productList; pb.NextPage := nextPage |}, None)
  end.

Definition CreateProduct (s : Server) (ctx : Context) (r : pb.CreateProductRequest)
  : M (option pb.CreateProductResponse * option error) :=
  '(p, err) ← call (service.CreateProduct (service s) ctx (pb.CreateProductRequest_Product r));
  match err with
  | Some e => log_Println e;; mret (None, err)
  | None =>
      mret (Some {| pb.CreateProductResponse_Product := Some {|
              pb.Id := primitive.Hex (service.ID p);
              pb.Sku := service.Sku p;
              pb.Name := service.Name p;
              pb.Description := service.Description p;
              pb.Price := service.Price p;
              pb.StockQuantity := service.StockQuantity p;
              pb.Category := service.Category p;
              pb.ImageUrl := service.ImageURL p;
              pb.IsActive := service.IsActive p;
              pb.Attributes := service.Attributes p |} |}, err)
  end.

Definition UpdateProduct (s : Server) (ctx : Context) (r : UpdateProductRequest)
  : M (option pb.UpdateProductResponse * option error) :=
  '(p, err) ← call (service.UpdateProduct (service s) ctx r);
  match err with
  | Some e => log_Println e;; mret (None, err)
  | None =>
      mret (Some {| pb.UpdateProductResponse_Product := Some {|
              pb.Id := primitive.Hex (service.ID p);
              pb.Sku := service.Sku p;
              pb.Name := service.Name p;
              pb.Description := service.Description p;
              pb.Price := service.Price p;
              pb.StockQuantity := service.StockQuantity p;
              pb.Category := service.Category p;
              pb.ImageUrl := service.ImageURL p;
              pb.IsActive := service.IsActive p;
              pb.Attributes := service.Attributes p |} |}, err)
  end.

Definition DeleteProduct (s : Server) (ctx : Context) (r : pb.DeleteProductRequest)
  : M (option pb.DeleteProductResponse * option error) :=
  err ← call (service.DeleteProduct (service s) ctx (pb.DeleteProductRequest_Id r));
  match err with
  | Some e =>
      if errors_Is e ErrNotFound
      then mret (None, status.Error codes.NotFound (Sprintf_v "pb not found: " e))
      else log_Println e;; mret (None, err)
  | None => mret (Some pb.Build_DeleteProductResponse, None)
  end.

Definition GetProductBySKU (s : Server) (ctx : Context) (r : pb.GetProductBySKURequest)
  : M (option pb.GetProductBySKUResponse * option error) :=
  '(p, err) ← call (service.GetProductBySKU (service s) ctx (pb.GetProductBySKURequest_Sku r));
  match err with
  | Some e =>
      if errors_Is e ErrNotFound
      then mret (None, status.Error codes.NotFound (Sprintf_v "p not found: " e))
      else mret (None, err)
  | None =>
      mret (Some {| pb.GetProductBySKUResponse_Product := Some {|
              pb.Id := primitive.Hex (service.ID p);
              pb.Sku := service.Sku p;
              pb.Name := service.Name p;
              pb.Description := service.Description p;
              pb.Price := service.Price p;
              pb.StockQuantity := service.StockQuantity p;
              pb.Category := service.Category p;
              pb.ImageUrl := service.ImageURL p;
              pb.IsActive := service.IsActive p;
              pb.Attributes := service.Attributes p |} |}, None)
  end.

(** The method an incoming call is handed to. *)
Definition serve (s : Server) (ctx : Context) (q : rpc)
  : M (option message * option error) :=
  match q with
  | GetProductRPC r =>
      '(m, err) ← GetProduct s ctx r; mret (GetProductMsg <$> m, err)
  | ListProductsRPC r =>
      '(m, err) ← ListProducts s ctx r; mret (ListProductsMsg <$> m, err)
  | CreateProductRPC r =>
      '(m, err) ← CreateProduct s ctx r; mret (CreateProductMsg <$> m, err)
  | UpdateProductRPC r =>
      '(m, err) ← UpdateProduct s ctx r; mret (UpdateProductMsg <$> m, err)
  | DeleteProductRPC r =>
      '(m, err) ← DeleteProduct s ctx r; mret (DeleteProductMsg <$> m, err)
  | GetProductBySKURPC r =>
      '(m, err) ← GetProductBySKU s ctx r; mret (GetProductBySKUMsg <$> m, err)
  end.

End Methods.
End server_dup.

(** ** What a caller observes *)
Section Observations.
Context `{Externals}.

(** What a method hands back when run in world [w]. *)
Definition reply {A : Type} (m : M A) (w : World) : A := (m w).1.

(** The world a method leaves behind. *)
Definition after {A : Type} (m : M A) (w : World) : World := (m w).2.

(** The outcome kind of a call, as the gRPC server reports it to the remote
    caller: [OK] without an error, the code of the status the error carries,
    and for an error without a status the code of [FromContextError]. *)
Definition outcome {A : Type} (out : option A * option error) : codes.Code :=
  match out.2 with
  | None => codes.OK
  | Some e =>
      match status.FromError e with
      | Some c => c
      | None => status.FromContextError e
      end
  end.

(** What the collaborator hands back to a method: the entities (one, or a
    page of them, or none for a deletion), the continuation token of a page,
    and the error. *)
Record answer : Type := {
  entities : list service.Product;
  token : string;
  failure : option error
}.

(** The collaborator call that stands behind an RPC: which method, and what
    is forwarded to it from the request, run on a store under the caller's
    context. *)
Definition collaborate (c : service.Service) (ctx : Context) (q : rpc)
    (st : Store) : answer * Store :=
  match q with
  | GetProductRPC r =>
      let '((p, err), st') :=
        service.GetProduct c ctx (pb.GetProductRequest_Id r) st in
      ({| entities := [p]; token := ""; failure := err |}, st')
  | ListProductsRPC r =>
      let '((ps, next, err), st') :=
        service.ListProducts c ctx (pb.GetFilter r)
          (pb.ListProductsRequest_Page r) (pb.ListProductsRequest_PageSize r) st in
      ({| entities := ps; token := next; failure := err |}, st')
  | CreateProductRPC r =>
      let '((p, err), st') :=
        service.CreateProduct c ctx (pb.CreateProductRequest_Product r) st in
      ({| entities := [p]; token := ""; failure := err |}, st')
  | UpdateProductRPC r =>
      let '((p, err), st') := service.UpdateProduct c ctx r st in
      ({| entities := [p]; token := ""; failure := err |}, st')
  | DeleteProductRPC r =>
      let '(err, st') :=
        service.DeleteProduct c ctx (pb.DeleteProductRequest_Id r) st in
      ({| entities := []; token := ""; failure := err |}, st')
  | GetProductBySKURPC r =>
      let '((p, err), st') :=
        service.GetProductBySKU c ctx (pb.GetProductBySKURequest_Sku r) st in
      ({| entities := [p]; token := ""; failure := err |}, st')
  end.

(** The products a response message carries. *)
Definition products_in (m : message) : list pb.Product :=
  match m with
  | GetProductMsg m => option_list (pb.GetProductResponse_Product m)
  | ListProductsMsg m => pb.Products m
  | CreateProductMsg m => option_list (pb.CreateProductResponse_Product m)
  | UpdateProductMsg m => option_list (pb.UpdateProductResponse_Product m)
  | DeleteProductMsg _ => []
  | GetProductBySKUMsg m => option_list (pb.GetProductBySKUResponse_Product m)
  end.

(** The four validation sentinels, as [CreateProduct] and [UpdateProduct]
    test for them. *)
Definition is_validation (e : error) : bool :=
  errors_Is e ErrInvalidSKU
  || errors_Is e ErrInvalidName
  || errors_Is e ErrInvalidPrice
  || errors_Is e ErrInvalidStockQty.

(** The classification table of the specification (section 4.1):
    [NotFound] for the sentinel of that name, [InvalidArgument] for the four
    validation sentinels, [Internal] for anything else. *)
Definition policy (e : error) : codes.Code :=
  if errors_Is e ErrNotFound then codes.NotFound
  else if is_validation e then codes.InvalidArgument
  else codes.Internal.

(** A failure that is none of the five sentinels. *)
Definition unclassified (e : error) : Prop :=
  ∀ v : sentinel, errors_Is e v = false.

(** The cause of a failure is a cancelled or expired context. *)
Definition is_context_failure (e : error) : bool :=
  errors_Is e Canceled || errors_Is e DeadlineExceeded.

End Observations.

(** The projection rule in the words of the specification: the identifier in
    its canonical string form, every other field as the entity has it. *)
Definition projects (p : service.Product) (q : pb.Product) : Prop :=
  pb.Id q = primitive.Hex (service.ID p)
  ∧ pb.Sku q = service.Sku p
  ∧ pb.Name q = service.Name p
  ∧ pb.Description q = service.Description p
  ∧ pb.Price q = service.Price p
  ∧ pb.StockQuantity q = service.StockQuantity p
  ∧ pb.Category q = service.Category p
  ∧ pb.ImageUrl q = service.ImageURL p
  ∧ pb.IsActive q = service.IsActive p
  ∧ pb.Attributes q = service.Attributes p.

(** ** An in-memory collaborator

    A small catalogue kept in a list, used to run the adapter on concrete
    requests.  It gives up with the context's cause when the context is
    done, validates drafts in the order SKU, name, price, stock quantity,
    and reports a missing product with [ErrNotFound] wrapped in a message
    that names the key. *)
Module memory.

#[local] Instance ext : Externals := {|
  Store := list service.Product;
  sentinel_text := fun s =>
    match s with
    | ErrNotFound => "product not found"
    | ErrInvalidSKU => "invalid sku"
    | ErrInvalidName => "invalid name"
    | ErrInvalidPrice => "invalid price"
    | ErrInvalidStockQty => "invalid stock quantity"
    end;
  UpdateProductRequest := pb.Product
|}.

Definition zero : service.Product := {|
  service.ID := primitive.NilObjectID;
  service.Sku := ""; service.Name := ""; service.Description := "";
  service.Price := 0%float; service.StockQuantity := 0%Z;
  service.Category := ""; service.ImageURL := "";
  service.IsActive := false; service.Attributes := ∅ |}.

Definition fresh_id (st : list service.Product) : primitive.ObjectID :=
  app (repeat Byte.x00 11) [default Byte.xff (Byte.of_nat (S (length st)))].

Definition validate (d : pb.Product) : option error :=
  if String.eqb (pb.Sku d) "" then Some (errValue ErrInvalidSKU)
  else if String.eqb (pb.Name d) "" then Some (errValue ErrInvalidName)
  else if PrimFloat.leb (pb.Price d) 0 then Some (errValue ErrInvalidPrice)
  else if (pb.StockQuantity d <? 0)%Z then Some (errValue ErrInvalidStockQty)
  else None.

Definition of_draft (id : primitive.ObjectID) (d : pb.Product) : service.Product := {|
  service.ID := id;
  service.Sku := pb.Sku d; service.Name := pb.Name d;
  service.Description := pb.Description d;
  service.Price := pb.Price d; service.StockQuantity := pb.StockQuantity d;
  service.Category := pb.Category d; service.ImageURL := pb.ImageUrl d;
  service.IsActive := pb.IsActive d; service.Attributes := pb.Attributes d |}.

Definition has_id (id : string) (p : service.Product) : bool :=
  String.eqb (primitive.Hex (service.ID p)) id.

Definition missing (key : string) : option error :=
  Some (wrapError (key ++ ": product not found") (errValue ErrNotFound)).

Definition guarded {A : Type} (ctx : Context) (dflt : A)
    (k : list service.Product -> (A * option error) * list service.Product)
    (st : list service.Product) : (A * option error) * list service.Product :=
  match ctx_Err ctx with
  | Some c => ((dflt, Some (errValue c)), st)
  | None => k st
  end.

(** An identifier that is not twenty-four characters long does not parse;
    the driver's error for it is none of the sentinels. *)
Definition parses (id : string) : bool := Nat.eqb (String.length id) 24.

Definition bad_hex : option error :=
  Some (errorString "the provided hex string is not a valid ObjectID").

Definition svc : service.Service := {|
  service.GetProduct := fun ctx id =>
    guarded ctx zero (fun st =>
      if negb (parses id) then ((zero, bad_hex), st)
      else match find (has_id id) st with
           | Some p => ((p, None), st)
           | None => ((zero, missing id), st)
           end);
  service.ListProducts := fun ctx query page pageSize st =>
    match ctx_Err ctx with
    | Some c => (([], "", Some (errValue c)), st)
    | None =>
        if (pageSize <=? 0)%Z
        then (([], "", Some (errorString "storage: page size out of range")), st)
        else ((st, "", None), st)
    end;
  service.CreateProduct := fun ctx draft =>
    guarded ctx zero (fun st =>
      match draft with
      | None => ((zero, Some (errorString "storage: no document")), st)
      | Some d =>
          match validate d with
          | Some e => ((zero, Some e), st)
          | None =>
              let p := of_draft (fresh_id st) d in ((p, None), app st [p])
          end
      end);
  service.UpdateProduct := fun ctx (r : pb.Product) =>
    guarded ctx zero (fun st =>
      if negb (parses (pb.Id r)) then ((zero, bad_hex), st)
      else match find (has_id (pb.Id r)) st with
           | None => ((zero, missing (pb.Id r)), st)
           | Some old =>
               match validate r with
               | Some e => ((zero, Some e), st)
               | None =>
                   let p := of_draft (service.ID old) r in
                   ((p, None),
                    map (fun q => if has_id (pb.Id r) q then p else q) st)
               end
           end);
  service.DeleteProduct := fun ctx id st =>
    match ctx_Err ctx with
    | Some c => (Some (errValue c), st)
    | None =>
        if negb (parses id) then (bad_hex, st)
        else match find (has_id id) st with
             | Some _ => (None, filter (fun q => negb (has_id id q)) st)
             | None => (missing id, st)
             end
    end;
  service.GetProductBySKU := fun ctx sku =>
    guarded ctx zero (fun st =>
      match find (fun p => String.eqb (service.Sku p) sku) st with
      | Some p => ((p, None), st)
      | None => ((zero, missing sku), st)
      end)
|}.

Definition srv : Server := NewProductCatalogServer svc.

Definition background : Context := {| ctx_Err := None |}.
Definition cancelled : Context := {| ctx_Err := Some Canceled |}.
Definition expired : Context := {| ctx_Err := Some DeadlineExceeded |}.

Definition widget : pb.Product := {|
  pb.Id := ""; pb.Sku := "W-1"; pb.Name := "Widget";
  pb.Description := "a widget"; pb.Price := 9.99%float;
  pb.StockQuantity := 5%Z; pb.Category := "tools";
  pb.ImageUrl := "http://img/w1.png"; pb.IsActive := true;
  pb.Attributes := {[ "colour" := "red" ]} |}.

(** The update of the specification's scenario: a negative price for the
    stored widget. *)
Definition underpriced : pb.Product := {|
  pb.Id := "000000000000000000000001"; pb.Sku := "W-1"; pb.Name := "Widget";
  pb.Description := "a widget"; pb.Price := (-1)%float;
  pb.StockQuantity := 5%Z; pb.Category := "tools";
  pb.ImageUrl := "http://img/w1.png"; pb.IsActive := true;
  pb.Attributes := {[ "colour" := "red" ]} |}.

(** An update aimed at a product the catalogue does not hold. *)
Definition stray : pb.Product := {|
  pb.Id := "000000000000000000000009"; pb.Sku := "W-9"; pb.Name := "Gadget";
  pb.Description := ""; pb.Price := 1%float;
  pb.StockQuantity := 1%Z; pb.Category := "";
  pb.ImageUrl := ""; pb.IsActive := true; pb.Attributes := ∅ |}.

(** The draft of the specification's scenario: an empty SKU. *)
Definition no_sku : pb.Product := {|
  pb.Id := ""; pb.Sku := ""; pb.Name := "Widget"; pb.Description := "";
  pb.Price := 9.99%float; pb.StockQuantity := 5%Z; pb.Category := "";
  pb.ImageUrl := ""; pb.IsActive := false; pb.Attributes := ∅ |}.

Definition stored : service.Product :=
  of_draft (fresh_id []) widget.

Definition empty : World := {| store := []; logged := [] |}.
Definition stocked : World := {| store := [stored]; logged := [] |}.
Definition noisy : World := {| store := [stored]; logged := ["earlier"] |}.

End memory.

(** ** A recording collaborator

    Its store is the list of the contexts its methods were called with, in
    order; every call succeeds with the zero entity. *)
Module spy.

#[local] Instance ext : Externals := {|
  Store := list Context;
  sentinel_text := fun _ => "";
  UpdateProductRequest := unit
|}.

Definition svc : service.Service := {|
  service.GetProduct := fun ctx _ seen => ((memory.zero, None), app seen [ctx]);
  service.ListProducts := fun ctx _ _ _ seen => (([], "", None), app seen [ctx]);
  service.CreateProduct := fun ctx _ seen => ((memory.zero, None), app seen [ctx]);
  service.UpdateProduct := fun ctx _ seen => ((memory.zero, None), app seen [ctx]);
  service.DeleteProduct := fun ctx _ seen => (None, app seen [ctx]);
  service.GetProductBySKU := fun ctx _ seen => ((memory.zero, None), app seen [ctx])
|}.

Definition srv : Server := NewProductCatalogServer svc.

Definition world (seen : list Context) : World :=
  {| store := seen; logged := [] |}.

End spy.

(** A collaborator that is out of order: every call fails with [e] and
    leaves the store as it is. *)
Definition failing `{Externals} (e : error) : service.Service := {|
  service.GetProduct := fun _ _ st => ((memory.zero, Some e), st);
  service.ListProducts := fun _ _ _ _ st => (([], "", Some e), st);
  service.CreateProduct := fun _ _ st => ((memory.zero, Some e), st);
  service.UpdateProduct := fun _ _ st => ((memory.zero, Some e), st);
  service.DeleteProduct := fun _ _ st => (Some e, st);
  service.GetProductBySKU := fun _ _ st => ((memory.zero, Some e), st)
|}.

(** ** The tests each method makes

    Read off the failure branches of the two listings: which methods test
    a failure for [ErrNotFound], which for the validation sentinels, which
    write it to the log, and the literal that opens the message of a
    [NotFound] status. *)
Section Tests.
Context `{Externals}.

Definition tests_NotFound (q : rpc) : bool :=
  match q with
  | GetProductRPC _ | UpdateProductRPC _ | GetProductBySKURPC _ => true
  | ListProductsRPC _ | CreateProductRPC _ | DeleteProductRPC _ => false
  end.

Definition tests_validation (q : rpc) : bool :=
  match q with
  | CreateProductRPC _ | UpdateProductRPC _ => true
  | GetProductRPC _ | ListProductsRPC _ | DeleteProductRPC _
  | GetProductBySKURPC _ => false
  end.

Definition dup_tests_NotFound (q : rpc) : bool :=
  match q with
  | GetProductRPC _ | DeleteProductRPC _ | GetProductBySKURPC _ => true
  | ListProductsRPC _ | CreateProductRPC _ | UpdateProductRPC _ => false
  end.

Definition dup_logs (q : rpc) : bool :=
  match q with
  | ListProductsRPC _ | CreateProductRPC _ | UpdateProductRPC _
  | DeleteProductRPC _ => true
  | GetProductRPC _ | GetProductBySKURPC _ => false
  end.

Definition not_found_text (q : rpc) : string :=
  match q with
  | GetProductBySKURPC _ => "p not found: "
  | _ => "pb not found: "
  end.

(** The code a method of the first listing gives to a failure. *)
Definition classify (q : rpc) (e : error) : codes.Code :=
  if tests_NotFound q && errors_Is e ErrNotFound then codes.NotFound
  else if tests_validation q && is_validation e then codes.InvalidArgument
  else codes.Internal.

(** Calls served one after the other by the same server, each under its own
    context; [serve] is the dispatch of either listing. *)
Fixpoint session (serve : Context -> rpc -> M (option message * option error))
    (calls : list (Context * rpc)) : M (list (option message * option error)) :=
  match calls with
  | [] => mret []
  | (ctx, q) :: rest =>
      out ← serve ctx q;
      outs ← session serve rest;
      mret (out :: outs)
  end.

(** The same calls made on the collaborator directly. *)
Fixpoint collaborations (c : service.Service) (calls : list (Context * rpc))
    (st : Store) : list answer * Store :=
  match calls with
  | [] => ([], st)
  | (ctx, q) :: rest =>
      let '(a, st') := collaborate c ctx q st in
      let '(answers, st'') := collaborations c rest st' in
      (a :: answers, st'')
  end.

End Tests.

(** ** Reading an identifier back

    The inverse of [primitive.EncodeToString] on what it prints: two
    lower-case hexadecimal digits per byte. *)
Definition unhexdigit (c : ascii) : option nat :=
  String.index 0 (String.String c "") primitive.hextable.



(** ** Basic facts *)

(** A chain of wrapped errors ends in at most one package-level value. *)
Lemma errors_Is_unique (e : error) (a b : errvar) :
  errors_Is e a = true → errors_Is e b = true → a = b.
Proof.
  induction e as [v | m | m e IH | c m]; simpl; try discriminate; auto.
  intros Ha Hb. apply bool_decide_eq_true in Ha, Hb. congruence.
Qed.

Lemma errors_Is_other (e : error) (a b : errvar) :
  errors_Is e a = true → a ≠ b → errors_Is e b = false.
Proof.
  intros Ha Hne. destruct (errors_Is e b) eqn:Hb; [|reflexivity].
  destruct Hne. eauto using errors_Is_unique.
Qed.

(** A chain that ends in a context error holds no status and none of the
    sentinels of package [service]. *)
Lemma context_failure_unclassified (e : error) :
  is_context_failure e = true →
  status.FromError e = None ∧ ∀ v : sentinel, errors_Is e v = false.
Proof.
  unfold is_context_failure. intros Hc. split.
  - induction e as [v | m | m e IH | c m]; simpl in *; auto; discriminate.
  - intros v. apply orb_true_iff in Hc as [Hc | Hc];
      apply (errors_Is_other _ _ _ Hc); discriminate.
Qed.

Lemma validation_member (v : sentinel) :
  v ∈ [ErrInvalidSKU; ErrInvalidName; ErrInvalidPrice; ErrInvalidStockQty] →
  v ≠ ErrNotFound.
Proof.
  intros Hv ->.
  repeat (apply elem_of_cons in Hv as [Hv | Hv]; [discriminate|]).
  by apply elem_of_nil in Hv.
Qed.

Lemma validation_sentinel (e : error) (v : sentinel) :
  errors_Is e v = true → v ≠ ErrNotFound →
  is_validation e = true ∧ errors_Is e ErrNotFound = false.
Proof.
  intros Hv Hne. split.
  - unfold is_validation. destruct v; try congruence; rewrite Hv;
      rewrite ?orb_true_r; reflexivity.
  - apply (errors_Is_other _ _ _ Hv). congruence.
Qed.

Lemma length_append (a b : string) :
  String.length (a ++ b) = String.length a + String.length b.
Proof. induction a as [|c a IH]; simpl; [reflexivity | by rewrite IH]. Qed.

(** Wrapping an error in a status changes it: the text of a status error is
    longer than its message. *)
Lemma status_wraps `{Externals} (c : codes.Code) (e : error) :
  e ≠ statusError c (Error e).
Proof.
  intros Heq. destruct e as [v | m | m e | c' m]; try discriminate.
  injection Heq as -> Hm. apply (f_equal String.length) in Hm.
  simpl in Hm. rewrite !length_append in Hm. simpl in Hm. lia.
Qed.

(** The canonical form of an identifier has two characters per byte:
    twenty-four for the twelve bytes of an [ObjectID]. *)
Lemma Hex_length (id : primitive.ObjectID) :
  String.length (primitive.Hex id) = 2 * length id.
Proof.
  unfold primitive.Hex. induction id as [|b id IH]; simpl; [reflexivity|].
  rewrite IH. lia.
Qed.

Lemma Hex_wf (id : primitive.ObjectID) :
  primitive.wf id → String.length (primitive.Hex id) = 24.
Proof. unfold primitive.wf. intros Hwf. rewrite Hex_length, Hwf. reflexivity. Qed.

Example Hex_nil : primitive.Hex primitive.NilObjectID = "000000000000000000000000".
Proof. reflexivity. Qed.

Example Hex_sample :
  primitive.Hex [Byte.x5f; Byte.x1a; Byte.xc0; Byte.xff; Byte.xee; Byte.x00;
                 Byte.x01; Byte.x23; Byte.x45; Byte.x67; Byte.x89; Byte.xab]
  = "5f1ac0ffee000123456789ab".
Proof. reflexivity. Qed.

(** The default of the query string changes nothing. *)
Lemma query_default (f : string) : (if String.eqb f "" then "" else f) = f.
Proof. destruct (String.eqb_spec f ""); congruence. Qed.

(** The loop of [ListProducts] appends one message per entity. *)
Lemma append_loop {A B : Type} (f : A → B) (l : list A) (acc : list B) :
  fold_left (fun productList p => app productList [f p]) l acc = app acc (map f l).
Proof.
  revert acc. induction l as [|a l IH]; intros acc; simpl.
  - symmetry. apply app_nil_r.
  - rewrite IH, <- app_assoc. reflexivity.
Qed.

(** A single entity, projected as the methods write it out. *)
Lemma projects_literal (p : service.Product) :
  projects p {|
    pb.Id := primitive.Hex (service.ID p);
    pb.Sku := service.Sku p;
    pb.Name := service.Name p;
    pb.Description := service.Description p;
    pb.Price := service.Price p;
    pb.StockQuantity := service.StockQuantity p;
    pb.Category := service.Category p;
    pb.ImageUrl := service.ImageURL p;
    pb.IsActive := service.IsActive p;
    pb.Attributes := service.Attributes p |}.
Proof. unfold projects; simpl. repeat split. Qed.

Lemma projects_page (ps : list service.Product) :
  Forall2 projects ps
    (map (fun p => {|
       pb.Id := primitive.Hex (service.ID p);
       pb.Sku := service.Sku p;
       pb.Name := service.Name p;
       pb.Description := service.Description p;
       pb.Price := service.Price p;
       pb.StockQuantity := service.StockQuantity p;
       pb.Category := service.Category p;
       pb.ImageUrl := service.ImageURL p;
       pb.IsActive := service.IsActive p;
       pb.Attributes := service.Attributes p |}) ps).
Proof.
  induction ps as [|p ps IH]; simpl; constructor; auto using projects_literal.
Qed.

Lemma projects_unique (p : service.Product) (q q' : pb.Product) :
  projects p q → projects p q' → q = q'.
Proof.
  destruct q, q'. unfold projects. simpl. intros H1 H2.
  destruct_and!. subst. reflexivity.
Qed.

(** Unfolding a method down to the collaborator's call. *)
Ltac open_method :=
  unfold reply, after, outcome;
  unfold server.serve, server_dup.serve;
  unfold
    server.GetProduct, server.ListProducts, server.CreateProduct,
    server.UpdateProduct, server.DeleteProduct, server.GetProductBySKU,
    server_dup.GetProduct, server_dup.ListProducts, server_dup.CreateProduct,
    server_dup.UpdateProduct, server_dup.DeleteProduct,
    server_dup.GetProductBySKU;
  unfold mbind, M_bind, mret, M_ret, call, log_Println;
  try rewrite query_default.

Ltac by_call H := open_method; rewrite H; simpl.

(** Naming the results of the collaborator's calls that a hypothesis
    destructures. *)
Ltac split_calls :=
  repeat match goal with
  | H : context [let '(_, _) := ?c in _] |- _ => destruct c eqn:?
  end;
  simplify_eq/=.

(** ** Failure paths of the first listing *)

Section FirstListing.
Context `{Externals}.
Implicit Types (s : Server) (ctx : Context) (w : World) (e : error)
  (p : service.Product) (st : Store).

Lemma server_GetProduct_failure s ctx r w p e st :
  service.GetProduct (service s) ctx (pb.GetProductRequest_Id r) (store w)
    = ((p, Some e), st) →
  reply (server.GetProduct s ctx r) w
  = (None, Some (if errors_Is e ErrNotFound
                 then statusError codes.NotFound ("pb not found: " ++ Error e)
                 else statusError codes.Internal (Error e))).
Proof. intros Hc. by_call Hc. destruct (errors_Is e ErrNotFound); reflexivity. Qed.

Lemma server_GetProductBySKU_failure s ctx r w p e st :
  service.GetProductBySKU (service s) ctx (pb.GetProductBySKURequest_Sku r) (store w)
    = ((p, Some e), st) →
  reply (server.GetProductBySKU s ctx r) w
  = (None, Some (if errors_Is e ErrNotFound
                 then statusError codes.NotFound ("p not found: " ++ Error e)
                 else statusError codes.Internal (Error e))).
Proof. intros Hc. by_call Hc. destruct (errors_Is e ErrNotFound); reflexivity. Qed.

Lemma server_ListProducts_failure s ctx r w ps next e st :
  service.ListProducts (service s) ctx (pb.GetFilter r)
    (pb.ListProductsRequest_Page r) (pb.ListProductsRequest_PageSize r) (store w)
    = ((ps, next, Some e), st) →
  reply (server.ListProducts s ctx r) w
  = (None, Some (statusError codes.Internal (Error e))).
Proof. intros Hc. by_call Hc. reflexivity. Qed.

Lemma server_CreateProduct_failure s ctx r w p e st :
  service.CreateProduct (service s) ctx (pb.CreateProductRequest_Product r) (store w)
    = ((p, Some e), st) →
  reply (server.CreateProduct s ctx r) w
  = (None, Some (statusError
                   (if is_validation e then codes.InvalidArgument else codes.Internal)
                   (Error e))).
Proof.
  intros Hc. by_call Hc. unfold is_validation.
  destruct (_ || _); reflexivity.
Qed.

Lemma server_UpdateProduct_failure s ctx r w p e st :
  service.UpdateProduct (service s) ctx r (store w) = ((p, Some e), st) →
  reply (server.UpdateProduct s ctx r) w
  = (None, Some (statusError (policy e)
                   (if errors_Is e ErrNotFound
                    then "pb not found: " ++ Error e else Error e))).
Proof.
  intros Hc. by_call Hc. unfold policy, is_validation.
  destruct (errors_Is e ErrNotFound); [reflexivity|].
  destruct (_ || _); reflexivity.
Qed.

Lemma server_DeleteProduct_failure s ctx r w e st :
  service.DeleteProduct (service s) ctx (pb.DeleteProductRequest_Id r) (store w)
    = (Some e, st) →
  reply (server.DeleteProduct s ctx r) w
  = (None, Some (statusError codes.Internal (Error e))).
Proof. intros Hc. by_call Hc. reflexivity. Qed.

Lemma server_DeleteProduct_success s ctx r w st :
  service.DeleteProduct (service s) ctx (pb.DeleteProductRequest_Id r) (store w)
    = (None, st) →
  reply (server.DeleteProduct s ctx r) w
  = (Some pb.Build_DeleteProductResponse, None).
Proof. intros Hc. by_call Hc. reflexivity. Qed.

(** Whatever the collaborator does, the first listing never hands back an
    error without a status, and four of its methods never the code
    [InvalidArgument]. *)
Lemma server_GetProduct_codes s ctx r w :
  let c := outcome (reply (server.GetProduct s ctx r) w) in
  c = codes.OK ∨ c = codes.NotFound ∨ c = codes.Internal.
Proof. open_method. repeat case_match; simplify_eq/=; auto. Qed.

Lemma server_GetProductBySKU_codes s ctx r w :
  let c := outcome (reply (server.GetProductBySKU s ctx r) w) in
  c = codes.OK ∨ c = codes.NotFound ∨ c = codes.Internal.
Proof. open_method. repeat case_match; simplify_eq/=; auto. Qed.

Lemma server_ListProducts_codes s ctx r w :
  let c := outcome (reply (server.ListProducts s ctx r) w) in
  c = codes.OK ∨ c = codes.Internal.
Proof. open_method. repeat case_match; simplify_eq/=; auto. Qed.

Lemma server_DeleteProduct_codes s ctx r w :
  let c := outcome (reply (server.DeleteProduct s ctx r) w) in
  c = codes.OK ∨ c = codes.Internal.
Proof. open_method. repeat case_match; simplify_eq/=; auto. Qed.

(** Every error the first listing hands back is a status error, so that a
    caller reading the error value with [status.Code] and the remote caller
    see the same code. *)
Lemma server_status_coded s ctx q w :
  status.Code (reply (server.serve s ctx q) w).2
  = outcome (reply (server.serve s ctx q) w).
Proof.
  destruct q; open_method; repeat case_match; simplify_eq/=; reflexivity.
Qed.

End FirstListing.

(** What a call of the first listing leaves behind: the store as the
    collaborator's method left it, run under the caller's context on what
    the request forwards; nothing is logged. *)
Lemma server_after `{Externals} (s : Server) (ctx : Context) (q : rpc) (w : World) :
  after (server.serve s ctx q) w
  = {| store := (collaborate (service s) ctx q (store w)).2;
       logged := logged w |}.
Proof.
  destruct w as [st l].
  destruct q; simpl; open_method; simpl; repeat case_match; simplify_eq/=;
    reflexivity.
Qed.

(** Seen from the collaborator: one call per RPC, under the context the
    adapter was called with, in either listing. *)
Lemma spy_sees_context (ctx : Context) (q : rpc) (seen : list Context) :
  store (after (server.serve spy.srv ctx q) (spy.world seen)) = app seen [ctx]
  ∧ store (after (server_dup.serve spy.srv ctx q) (spy.world seen))
    = app seen [ctx].
Proof. destruct q; split; reflexivity. Qed.

(** The first listing reports a failure that is none of the sentinels as
    [Internal], in every method. *)
Lemma server_unclassified `{Externals} (s : Server) (ctx : Context) (q : rpc)
    (w : World) (a : answer) (st : Store) (e : error) :
  collaborate (service s) ctx q (store w) = (a, st) →
  failure a = Some e →
  unclassified e →
  reply (server.serve s ctx q) w
  = (None, Some (statusError codes.Internal (Error e))).
Proof.
  intros Hc Hfail Hno.
  pose proof (Hno ErrNotFound) as HNF.
  pose proof (Hno ErrInvalidSKU) as H1. pose proof (Hno ErrInvalidName) as H2.
  pose proof (Hno ErrInvalidPrice) as H3.
  pose proof (Hno ErrInvalidStockQty) as H4.
  destruct a as [ps tok err]. simpl in Hfail. subst err.
  destruct q; simpl in Hc; open_method; split_calls;
    rewrite ?HNF, ?H1, ?H2, ?H3, ?H4; reflexivity.
Qed.

(** ** The second listing *)

Section SecondListing.
Context `{Externals}.
Implicit Types (s : Server) (ctx : Context) (w : World) (e : error)
  (p : service.Product) (st : Store).

(** A failure comes back as the collaborator gave it, except [ErrNotFound]
    in the three methods that test for it. *)
Lemma server_dup_failure s ctx q w a st e :
  collaborate (service s) ctx q (store w) = (a, st) →
  failure a = Some e →
  reply (server_dup.serve s ctx q) w
  = (None,
     match q with
     | GetProductRPC _ | DeleteProductRPC _ =>
         if errors_Is e ErrNotFound
         then Some (statusError codes.NotFound ("pb not found: " ++ Error e))
         else Some e
     | GetProductBySKURPC _ =>
         if errors_Is e ErrNotFound
         then Some (statusError codes.NotFound ("p not found: " ++ Error e))
         else Some e
     | _ => Some e
     end).
Proof.
  intros Hc Hfail. destruct a as [ps tok err]. simpl in Hfail. subst err.
  destruct q; simpl in Hc; open_method; split_calls;
    try destruct (errors_Is e ErrNotFound); reflexivity.
Qed.

(** What the second listing writes to the log: the failures of
    [ListProducts], [CreateProduct] and [UpdateProduct], and those of
    [DeleteProduct] other than [ErrNotFound]; the two lookups write none. *)
Lemma server_dup_logged s ctx q w a st e :
  collaborate (service s) ctx q (store w) = (a, st) →
  failure a = Some e →
  logged (after (server_dup.serve s ctx q) w)
  = match q with
    | GetProductRPC _ | GetProductBySKURPC _ => logged w
    | DeleteProductRPC _ =>
        if errors_Is e ErrNotFound then logged w else app (logged w) [Error e]
    | _ => app (logged w) [Error e]
    end.
Proof.
  intros Hc Hfail. destruct a as [ps tok err]. simpl in Hfail. subst err.
  destruct q; simpl in Hc; open_method; split_calls;
    try destruct (errors_Is e ErrNotFound); reflexivity.
Qed.

(** On success the two listings reply alike. *)
Lemma listings_agree_on_success s ctx q w a st :
  collaborate (service s) ctx q (store w) = (a, st) →
  failure a = None →
  server_dup.serve s ctx q w = server.serve s ctx q w.
Proof.
  intros Hc Hok. destruct a as [ps tok err]. simpl in Hok. subst err.
  destruct q; simpl in Hc; open_method; split_calls; reflexivity.
Qed.

(** A cancelled or expired collaborator call, handed back by the second
    listing as it is, reaches the remote caller with the code of its
    cause. *)
Lemma server_dup_context_failure s ctx q w a st e :
  collaborate (service s) ctx q (store w) = (a, st) →
  failure a = Some e →
  is_context_failure e = true →
  outcome (reply (server_dup.serve s ctx q) w)
  = if errors_Is e DeadlineExceeded then codes.DeadlineExceeded
    else codes.Canceled.
Proof.
  intros Hc Hfail Hctx.
  destruct (context_failure_unclassified e Hctx) as [Hnone Hno].
  rewrite (server_dup_failure _ _ _ _ _ _ _ Hc Hfail), (Hno ErrNotFound).
  assert (outcome (A:=message) (None, Some e)
          = if errors_Is e DeadlineExceeded then codes.DeadlineExceeded
            else codes.Canceled) as Hout.
  { unfold outcome, status.FromContextError. simpl. rewrite Hnone.
    unfold is_context_failure in Hctx.
    destruct (errors_Is e DeadlineExceeded); [reflexivity|].
    rewrite orb_false_r in Hctx. rewrite Hctx. reflexivity. }
  destruct q; exact Hout.
Qed.

End SecondListing.

(** [DeleteProduct] of the second listing at an identifier that does not
    parse: the failure is none of the sentinels and comes back without a
    status, so that the outcome is [Unknown] where the table says
    [Internal]. *)
Lemma server_dup_DeleteProduct_unwrapped :
  let r := {| pb.DeleteProductRequest_Id := "w1" |} in
  let e := errorString "the provided hex string is not a valid ObjectID" in
  service.DeleteProduct memory.svc memory.background
    (pb.DeleteProductRequest_Id r) [memory.stored] = (Some e, [memory.stored])
  ∧ policy e = codes.Internal
  ∧ reply (server_dup.DeleteProduct memory.srv memory.background r)
      memory.stocked = (None, Some e)
  ∧ outcome (reply (server_dup.DeleteProduct memory.srv memory.background r)
               memory.stocked) = codes.Unknown.
Proof. repeat split. Qed.

(** ** The properties of the specification *)

(** C1, at the deletion of a product the catalogue does not hold: the
    collaborator fails with [ErrNotFound] (wrapped), and [DeleteProduct] of
    the first listing reports [Internal] where the table says [NotFound]. *)
Theorem C1_DeleteProduct_NotFound_as_Internal :
  let r := {| pb.DeleteProductRequest_Id := "000000000000000000000000" |} in
  let e := wrapError "000000000000000000000000: product not found"
             (errValue ErrNotFound) in
  service.DeleteProduct memory.svc memory.background
    (pb.DeleteProductRequest_Id r) [] = (Some e, [])
  ∧ errors_Is e ErrNotFound = true
  ∧ policy e = codes.NotFound
  ∧ reply (server.DeleteProduct memory.srv memory.background r) memory.empty
    = (None, Some (statusError codes.Internal
                     "000000000000000000000000: product not found"))
  ∧ outcome (reply (server.DeleteProduct memory.srv memory.background r)
               memory.empty) = codes.Internal.
Proof. repeat split. Qed.

(** C2. The two lookups of the first listing, when the collaborator fails:
    a failure that is [ErrNotFound] gives the outcome [NotFound] and no
    response, hence no product; any other failure gives a status error of
    code [Internal] whose message is the text of the collaborator's error.
    Whatever the collaborator does, neither lookup ends in
    [InvalidArgument]. *)
Theorem C2_lookup_failures `{Externals} (s : Server) (ctx : Context) (w : World) :
  (∀ r p e st,
     service.GetProduct (service s) ctx (pb.GetProductRequest_Id r) (store w)
       = ((p, Some e), st) →
     (errors_Is e ErrNotFound = true →
        outcome (reply (server.GetProduct s ctx r) w) = codes.NotFound
        ∧ (reply (server.GetProduct s ctx r) w).1 = None)
     ∧ (errors_Is e ErrNotFound = false →
        reply (server.GetProduct s ctx r) w
        = (None, Some (statusError codes.Internal (Error e)))))
  ∧ (∀ r p e st,
     service.GetProductBySKU (service s) ctx (pb.GetProductBySKURequest_Sku r) (store w)
       = ((p, Some e), st) →
     (errors_Is e ErrNotFound = true →
        outcome (reply (server.GetProductBySKU s ctx r) w) = codes.NotFound
        ∧ (reply (server.GetProductBySKU s ctx r) w).1 = None)
     ∧ (errors_Is e ErrNotFound = false →
        reply (server.GetProductBySKU s ctx r) w
        = (None, Some (statusError codes.Internal (Error e)))))
  ∧ (∀ r, outcome (reply (server.GetProduct s ctx r) w) ≠ codes.InvalidArgument)
  ∧ (∀ r, outcome (reply (server.GetProductBySKU s ctx r) w) ≠ codes.InvalidArgument).
Proof.
  split; [|split; [|split]].
  - intros r p e st Hc. rewrite (server_GetProduct_failure _ _ _ _ _ _ _ Hc).
    split; intros ->; auto.
  - intros r p e st Hc. rewrite (server_GetProductBySKU_failure _ _ _ _ _ _ _ Hc).
    split; intros ->; auto.
  - intros r. destruct (server_GetProduct_codes s ctx r w) as [-> | [-> | ->]];
      discriminate.
  - intros r. destruct (server_GetProductBySKU_codes s ctx r w) as [-> | [-> | ->]];
      discriminate.
Qed.

(** A lookup by an identifier, and one by a SKU, that the empty catalogue
    does not hold; and a lookup by an identifier that does not parse. *)
Lemma C2_witness :
  (outcome (reply (server.GetProduct memory.srv memory.background
              {| pb.GetProductRequest_Id := "000000000000000000000000" |})
              memory.empty) = codes.NotFound
   ∧ (reply (server.GetProduct memory.srv memory.background
              {| pb.GetProductRequest_Id := "000000000000000000000000" |})
              memory.empty).1 = None)
  ∧ (outcome (reply (server.GetProductBySKU memory.srv memory.background
              {| pb.GetProductBySKURequest_Sku := "W-1" |})
              memory.empty) = codes.NotFound
   ∧ (reply (server.GetProductBySKU memory.srv memory.background
              {| pb.GetProductBySKURequest_Sku := "W-1" |})
              memory.empty).1 = None)
  ∧ reply (server.GetProduct memory.srv memory.background
              {| pb.GetProductRequest_Id := "w1" |}) memory.empty
    = (None, Some (statusError codes.Internal
                     "the provided hex string is not a valid ObjectID"))
  ∧ reply (server.GetProductBySKU memory.srv memory.expired
              {| pb.GetProductBySKURequest_Sku := "W-1" |}) memory.empty
    = (None, Some (statusError codes.Internal "context deadline exceeded")).
Proof.
  destruct (C2_lookup_failures memory.srv memory.background memory.empty)
    as (Hget & Hsku & _ & _).
  destruct (C2_lookup_failures memory.srv memory.expired memory.empty)
    as (_ & Hsku' & _ & _).
  split; [|split; [|split]].
  - apply (Hget {| pb.GetProductRequest_Id := "000000000000000000000000" |}
             memory.zero
             (wrapError "000000000000000000000000: product not found"
                (errValue ErrNotFound)) []); reflexivity.
  - apply (Hsku {| pb.GetProductBySKURequest_Sku := "W-1" |} memory.zero
             (wrapError "W-1: product not found" (errValue ErrNotFound)) []);
      reflexivity.
  - apply (Hget {| pb.GetProductRequest_Id := "w1" |} memory.zero
             (errorString "the provided hex string is not a valid ObjectID") []);
      reflexivity.
  - apply (Hsku' {| pb.GetProductBySKURequest_Sku := "W-1" |} memory.zero
             (errValue DeadlineExceeded) []); reflexivity.
Defined.

(** C3, at the draft without SKU of the specification's scenario: the
    collaborator fails with [ErrInvalidSKU]; [CreateProduct] of the second
    listing logs the error and hands it back without a status, so that the
    outcome is [Unknown] where the table says [InvalidArgument]; the first
    listing answers [InvalidArgument]. *)
Theorem C3_CreateProduct_dup_unwrapped :
  let r := {| pb.CreateProductRequest_Product := Some memory.no_sku |} in
  service.CreateProduct memory.svc memory.background
    (pb.CreateProductRequest_Product r) []
    = ((memory.zero, Some (errValue ErrInvalidSKU)), [])
  ∧ policy (errValue ErrInvalidSKU) = codes.InvalidArgument
  ∧ reply (server_dup.CreateProduct memory.srv memory.background r) memory.empty
    = (None, Some (errValue ErrInvalidSKU))
  ∧ outcome (reply (server_dup.CreateProduct memory.srv memory.background r)
               memory.empty) = codes.Unknown
  ∧ logged (after (server_dup.CreateProduct memory.srv memory.background r)
              memory.empty) = ["invalid sku"]
  ∧ outcome (reply (server.CreateProduct memory.srv memory.background r)
               memory.empty) = codes.InvalidArgument.
Proof. repeat split. Qed.

(** C4, at the update of the stored widget to a negative price and at the
    update of a product the catalogue does not hold: the collaborator fails
    with [ErrInvalidPrice] and with [ErrNotFound]; [UpdateProduct] of the
    second listing hands both back without a status, so that the outcome is
    [Unknown] where the table says [InvalidArgument] and [NotFound]; the
    first listing follows the table. *)
Theorem C4_UpdateProduct_dup_unwrapped :
  let e := wrapError "000000000000000000000009: product not found"
             (errValue ErrNotFound) in
  service.UpdateProduct memory.svc memory.background memory.underpriced
    [memory.stored]
    = ((memory.zero, Some (errValue ErrInvalidPrice)), [memory.stored])
  ∧ reply (server_dup.UpdateProduct memory.srv memory.background
             memory.underpriced) memory.stocked
    = (None, Some (errValue ErrInvalidPrice))
  ∧ outcome (reply (server_dup.UpdateProduct memory.srv memory.background
               memory.underpriced) memory.stocked) = codes.Unknown
  ∧ outcome (reply (server.UpdateProduct memory.srv memory.background
               memory.underpriced) memory.stocked) = codes.InvalidArgument
  ∧ service.UpdateProduct memory.svc memory.background memory.stray
      [memory.stored] = ((memory.zero, Some e), [memory.stored])
  ∧ reply (server_dup.UpdateProduct memory.srv memory.background memory.stray)
      memory.stocked = (None, Some e)
  ∧ outcome (reply (server_dup.UpdateProduct memory.srv memory.background
               memory.stray) memory.stocked) = codes.Unknown
  ∧ outcome (reply (server.UpdateProduct memory.srv memory.background
               memory.stray) memory.stocked) = codes.NotFound.
Proof. repeat split. Qed.

(** C5. On the success path of each of the six methods the response carries,
    for every entity the collaborator handed back and in the same order, a
    product whose identifier is the hexadecimal form of the entity's
    identifier and whose other nine fields are the entity's, unchanged; a
    deletion has no entity and its response no product. *)
Theorem C5_projection `{Externals} (s : Server) (ctx : Context) (q : rpc)
    (w : World) (a : answer) (st : Store) :
  collaborate (service s) ctx q (store w) = (a, st) →
  failure a = None →
  ∃ m : message,
    reply (server.serve s ctx q) w = (Some m, None)
    ∧ Forall2 projects (entities a) (products_in m).
Proof.
  intros Hc Hok. destruct a as [ps tok err]. simpl in Hok. subst err.
  destruct q; simpl in Hc; open_method; repeat case_match; simplify_eq/=;
    eexists; (split; [reflexivity|]); simpl;
    try rewrite append_loop; simpl;
    auto using projects_page, projects_literal, Forall2_nil, Forall2_cons.
Qed.

(** The stored widget, read back through the in-memory collaborator. *)
Lemma C5_witness :
  ∃ m : message,
    reply (server.serve memory.srv memory.background
             (GetProductRPC {| pb.GetProductRequest_Id := "000000000000000000000001" |}))
      memory.stocked = (Some m, None)
    ∧ Forall2 projects [memory.stored] (products_in m).
Proof.
  apply (C5_projection memory.srv memory.background _ memory.stocked
           {| entities := [memory.stored]; token := ""; failure := None |}
           [memory.stored]); reflexivity.
Defined.

(** The first listing on a cancelled context: the lookup of a stored product
    and the listing both come back as [Internal]. *)
Lemma C6_counterexample :
  let get := GetProductRPC {| pb.GetProductRequest_Id := "000000000000000000000001" |} in
  let page := ListProductsRPC {| pb.ListProductsRequest_Filter := None;
                                 pb.ListProductsRequest_Page := 1;
                                 pb.ListProductsRequest_PageSize := 10 |} in
  failure (collaborate memory.svc memory.cancelled get [memory.stored]).1
    = Some (errValue Canceled)
  ∧ reply (server.serve memory.srv memory.cancelled get) memory.stocked
    = (None, Some (statusError codes.Internal "context canceled"))
  ∧ outcome (reply (server.serve memory.srv memory.cancelled get) memory.stocked)
    = codes.Internal
  ∧ failure (collaborate memory.svc memory.expired page [memory.stored]).1
    = Some (errValue DeadlineExceeded)
  ∧ outcome (reply (server.serve memory.srv memory.expired page) memory.stocked)
    = codes.Internal.
Proof. repeat split. Qed.

(** C6, amended. Every method hands the caller's context to the collaborator
    as it received it: the store a call leaves is the one the collaborator's
    method leaves when run under that very context.  A failure of the
    collaborator caused by cancellation or by the deadline is none of the
    sentinels, and the first listing reports it as any unclassified failure:
    outcome [Internal], with the text of the collaborator's error as
    message. *)
Theorem C6_context_failure_is_Internal `{Externals} (s : Server)
    (ctx : Context) (q : rpc) (w : World) :
  store (after (server.serve s ctx q) w)
  = (collaborate (service s) ctx q (store w)).2
  ∧ ∀ e : error,
      failure (collaborate (service s) ctx q (store w)).1 = Some e →
      is_context_failure e = true →
      reply (server.serve s ctx q) w
      = (None, Some (statusError codes.Internal (Error e)))
      ∧ outcome (reply (server.serve s ctx q) w) = codes.Internal.
Proof.
  split; [rewrite server_after; reflexivity|].
  intros e Hfail Hctx.
  destruct (collaborate (service s) ctx q (store w)) as [a st] eqn:Hc.
  destruct (context_failure_unclassified e Hctx) as [_ Hno].
  rewrite (server_unclassified s ctx q w a st e Hc Hfail Hno). auto.
Qed.

(** The deletion of the stored widget under a cancelled context. *)
Lemma C6_witness :
  reply (server.serve memory.srv memory.cancelled
           (DeleteProductRPC {| pb.DeleteProductRequest_Id := "000000000000000000000001" |}))
      memory.stocked
    = (None, Some (statusError codes.Internal "context canceled"))
  ∧ outcome (reply (server.serve memory.srv memory.cancelled
           (DeleteProductRPC {| pb.DeleteProductRequest_Id := "000000000000000000000001" |}))
      memory.stocked) = codes.Internal.
Proof.
  apply (proj2 (C6_context_failure_is_Internal memory.srv memory.cancelled
           (DeleteProductRPC {| pb.DeleteProductRequest_Id := "000000000000000000000001" |})
           memory.stocked) (errValue Canceled)); reflexivity.
Defined.

(** C7. When the collaborator's list call succeeds, [ListProducts] answers
    without an error (outcome [OK], never [NotFound]); the response holds one
    projected product per entity, in the collaborator's order, hence none for
    no entity; and the continuation token is the collaborator's, whatever it
    is (the empty token included). *)
Theorem C7_ListProducts_success `{Externals} (s : Server) (ctx : Context)
    (r : pb.ListProductsRequest) (w : World)
    (products : list service.Product) (nextPage : string) (st : Store) :
  service.ListProducts (service s) ctx (pb.GetFilter r)
    (pb.ListProductsRequest_Page r) (pb.ListProductsRequest_PageSize r)
    (store w) = ((products, nextPage, None), st) →
  ∃ resp : pb.ListProductsResponse,
    reply (server.ListProducts s ctx r) w = (Some resp, None)
    ∧ outcome (reply (server.ListProducts s ctx r) w) = codes.OK
    ∧ Forall2 projects products (pb.Products resp)
    ∧ length (pb.Products resp) = length products
    ∧ (products = [] → pb.Products resp = [])
    ∧ pb.NextPage resp = nextPage
    ∧ (nextPage = "" → pb.NextPage resp = "").
Proof.
  intros Hcall. by_call Hcall. eexists. split; [reflexivity|]. simpl.
  rewrite append_loop. simpl.
  repeat split; auto.
  - clear Hcall. induction products as [|p l IH]; simpl; constructor; auto.
    unfold projects; simpl. repeat split.
  - apply length_map.
  - intros ->. reflexivity.
Qed.

(** The empty catalogue, listed through the in-memory collaborator. *)
Lemma C7_witness :
  ∃ resp : pb.ListProductsResponse,
    reply (server.ListProducts memory.srv memory.background
             {| pb.ListProductsRequest_Filter := None;
                pb.ListProductsRequest_Page := 1;
                pb.ListProductsRequest_PageSize := 10 |}) memory.empty
      = (Some resp, None)
    ∧ pb.Products resp = []
    ∧ pb.NextPage resp = "".
Proof.
  destruct (C7_ListProducts_success memory.srv memory.background
              {| pb.ListProductsRequest_Filter := None;
                 pb.ListProductsRequest_Page := 1;
                 pb.ListProductsRequest_PageSize := 10 |}
              memory.empty [] "" [])
    as (resp & Hreply & _ & _ & _ & Hnone & _ & Hlast); [reflexivity|].
  exists resp. auto.
Defined.

(** C8. In the first listing [GetProduct], [ListProducts], [DeleteProduct]
    and [GetProductBySKU] never end in [InvalidArgument], whatever the
    request and whatever the collaborator does; [CreateProduct] and
    [UpdateProduct] end in [InvalidArgument] whenever the collaborator fails
    with one of the four validation sentinels. *)
Theorem C8_InvalidArgument_only_from_mutations `{Externals} (s : Server)
    (ctx : Context) (w : World) :
  (∀ r, outcome (reply (server.GetProduct s ctx r) w) ≠ codes.InvalidArgument)
  ∧ (∀ r, outcome (reply (server.ListProducts s ctx r) w) ≠ codes.InvalidArgument)
  ∧ (∀ r, outcome (reply (server.DeleteProduct s ctx r) w) ≠ codes.InvalidArgument)
  ∧ (∀ r, outcome (reply (server.GetProductBySKU s ctx r) w) ≠ codes.InvalidArgument)
  ∧ (∀ r p e st (v : sentinel),
       service.CreateProduct (service s) ctx (pb.CreateProductRequest_Product r)
         (store w) = ((p, Some e), st) →
       v ∈ [ErrInvalidSKU; ErrInvalidName; ErrInvalidPrice; ErrInvalidStockQty] →
       errors_Is e v = true →
       outcome (reply (server.CreateProduct s ctx r) w) = codes.InvalidArgument)
  ∧ (∀ r p e st (v : sentinel),
       service.UpdateProduct (service s) ctx r (store w) = ((p, Some e), st) →
       v ∈ [ErrInvalidSKU; ErrInvalidName; ErrInvalidPrice; ErrInvalidStockQty] →
       errors_Is e v = true →
       outcome (reply (server.UpdateProduct s ctx r) w) = codes.InvalidArgument).
Proof.
  repeat split.
  - intros r. destruct (server_GetProduct_codes s ctx r w) as [-> | [-> | ->]];
      discriminate.
  - intros r. destruct (server_ListProducts_codes s ctx r w) as [-> | ->];
      discriminate.
  - intros r. destruct (server_DeleteProduct_codes s ctx r w) as [-> | ->];
      discriminate.
  - intros r. destruct (server_GetProductBySKU_codes s ctx r w) as [-> | [-> | ->]];
      discriminate.
  - intros r p e st v Hc Hv His.
    pose proof (validation_member v Hv) as Hne.
    destruct (validation_sentinel e v His Hne) as [Hval _].
    rewrite (server_CreateProduct_failure _ _ _ _ _ _ _ Hc), Hval. reflexivity.
  - intros r p e st v Hc Hv His.
    pose proof (validation_member v Hv) as Hne.
    destruct (validation_sentinel e v His Hne) as [Hval HNF].
    rewrite (server_UpdateProduct_failure _ _ _ _ _ _ _ Hc).
    unfold policy. rewrite HNF, Hval. reflexivity.
Qed.

(** The two scenarios of the specification: a draft without SKU, and an
    update of the stored widget to a negative price. *)
Lemma C8_witness :
  outcome (reply (server.CreateProduct memory.srv memory.background
             {| pb.CreateProductRequest_Product := Some memory.no_sku |})
             memory.empty) = codes.InvalidArgument
  ∧ outcome (reply (server.UpdateProduct memory.srv memory.background
             memory.underpriced) memory.stocked) = codes.InvalidArgument.
Proof.
  destruct (C8_InvalidArgument_only_from_mutations memory.srv memory.background
              memory.empty) as (_ & _ & _ & _ & Hcreate & _).
  destruct (C8_InvalidArgument_only_from_mutations memory.srv memory.background
              memory.stocked) as (_ & _ & _ & _ & _ & Hupdate).
  split.
  - apply (Hcreate {| pb.CreateProductRequest_Product := Some memory.no_sku |}
             memory.zero (errValue ErrInvalidSKU) [] ErrInvalidSKU);
      [reflexivity | | reflexivity]; repeat constructor.
  - apply (Hupdate memory.underpriced memory.zero (errValue ErrInvalidPrice)
             [memory.stored] ErrInvalidPrice);
      [reflexivity | | reflexivity]; repeat constructor.
Defined.

(** C9. The two listings are not equivalent.  A failure that is none of the
    sentinels comes back from every method of the first listing as a status
    error of code [Internal], and from the same method of the second listing
    as the collaborator's own error, not wrapped in a status: two different
    replies.  [CreateProduct] of the second listing hands back every failure
    that way, the validation sentinels included.  When the collaborator
    reports [ErrNotFound] to [DeleteProduct], the first listing ends in
    [Internal] and the second in [NotFound].  Hence in any world some
    collaborator, context and call make the two outcomes differ. *)
Theorem C9_listings_differ `{Externals} :
  (∀ s ctx q w a st e,
     collaborate (service s) ctx q (store w) = (a, st) →
     failure a = Some e →
     unclassified e →
     reply (server.serve s ctx q) w
       = (None, Some (statusError codes.Internal (Error e)))
     ∧ reply (server_dup.serve s ctx q) w = (None, Some e)
     ∧ reply (server.serve s ctx q) w ≠ reply (server_dup.serve s ctx q) w)
  ∧ (∀ s ctx r w p e st,
     service.CreateProduct (service s) ctx (pb.CreateProductRequest_Product r)
       (store w) = ((p, Some e), st) →
     reply (server_dup.CreateProduct s ctx r) w = (None, Some e))
  ∧ (∀ s ctx r w e st,
     service.DeleteProduct (service s) ctx (pb.DeleteProductRequest_Id r)
       (store w) = (Some e, st) →
     errors_Is e ErrNotFound = true →
     outcome (reply (server.DeleteProduct s ctx r) w) = codes.Internal
     ∧ outcome (reply (server_dup.DeleteProduct s ctx r) w) = codes.NotFound)
  ∧ (∀ w, ∃ s ctx q,
     outcome (reply (server.serve s ctx q) w)
     ≠ outcome (reply (server_dup.serve s ctx q) w)).
Proof.
  split; [|split; [|split]].
  - intros s ctx q w a st e Hc Hfail Hno.
    rewrite (server_unclassified _ _ _ _ _ _ _ Hc Hfail Hno).
    rewrite (server_dup_failure _ _ _ _ _ _ _ Hc Hfail), (Hno ErrNotFound).
    assert (∀ o : option error, o = Some e →
              (@None message, Some (statusError codes.Internal (Error e)))
              ≠ (None, o)) as Hdiff.
    { intros o -> Heq. injection Heq as Heq. symmetry in Heq.
      exact (status_wraps _ _ Heq). }
    repeat split; destruct q; auto.
  - intros s ctx r w p e st Hc. by_call Hc. reflexivity.
  - intros s ctx r w e st Hc HNF. split; by_call Hc; [reflexivity|].
    rewrite HNF. reflexivity.
  - intros w.
    exists (NewProductCatalogServer (failing (errValue ErrNotFound))),
      {| ctx_Err := None |},
      (DeleteProductRPC {| pb.DeleteProductRequest_Id := "" |}).
    discriminate.
Qed.

(** On the in-memory catalogue: a listing with a page size of zero, a draft
    without SKU, and the deletion of a product that is not there. *)
Lemma C9_witness :
  (reply (server.serve memory.srv memory.background
            (ListProductsRPC {| pb.ListProductsRequest_Filter := Some "w";
                                pb.ListProductsRequest_Page := 1;
                                pb.ListProductsRequest_PageSize := 0 |}))
     memory.stocked
   = (None, Some (statusError codes.Internal "storage: page size out of range"))
   ∧ reply (server_dup.serve memory.srv memory.background
            (ListProductsRPC {| pb.ListProductsRequest_Filter := Some "w";
                                pb.ListProductsRequest_Page := 1;
                                pb.ListProductsRequest_PageSize := 0 |}))
       memory.stocked
     = (None, Some (errorString "storage: page size out of range"))
   ∧ reply (server.serve memory.srv memory.background
            (ListProductsRPC {| pb.ListProductsRequest_Filter := Some "w";
                                pb.ListProductsRequest_Page := 1;
                                pb.ListProductsRequest_PageSize := 0 |}))
       memory.stocked
     ≠ reply (server_dup.serve memory.srv memory.background
            (ListProductsRPC {| pb.ListProductsRequest_Filter := Some "w";
                                pb.ListProductsRequest_Page := 1;
                                pb.ListProductsRequest_PageSize := 0 |}))
       memory.stocked)
  ∧ reply (server_dup.CreateProduct memory.srv memory.background
             {| pb.CreateProductRequest_Product := Some memory.no_sku |})
      memory.empty
    = (None, Some (errValue ErrInvalidSKU))
  ∧ (outcome (reply (server.DeleteProduct memory.srv memory.background
               {| pb.DeleteProductRequest_Id := "000000000000000000000000" |})
               memory.empty) = codes.Internal
     ∧ outcome (reply (server_dup.DeleteProduct memory.srv memory.background
               {| pb.DeleteProductRequest_Id := "000000000000000000000000" |})
               memory.empty) = codes.NotFound).
Proof.
  destruct (C9_listings_differ (H:=memory.ext)) as (Hraw & Hcreate & Hdelete & _).
  split; [|split].
  - apply (Hraw memory.srv memory.background
             (ListProductsRPC {| pb.ListProductsRequest_Filter := Some "w";
                                 pb.ListProductsRequest_Page := 1;
                                 pb.ListProductsRequest_PageSize := 0 |})
             memory.stocked
             {| entities := []; token := "";
                failure := Some (errorString "storage: page size out of range") |}
             [memory.stored]
             (errorString "storage: page size out of range"));
      [reflexivity | reflexivity | intros v; reflexivity].
  - apply (Hcreate memory.srv memory.background
             {| pb.CreateProductRequest_Product := Some memory.no_sku |}
             memory.empty memory.zero (errValue ErrInvalidSKU) []).
    reflexivity.
  - apply (Hdelete memory.srv memory.background
             {| pb.DeleteProductRequest_Id := "000000000000000000000000" |}
             memory.empty
             (wrapError "000000000000000000000000: product not found"
                (errValue ErrNotFound)) []); reflexivity.
Defined.

(** C10. A method's reply is a function of the request and of what the
    collaborator handed back: two calls with the same request whose
    collaborator calls give the same entities, token and error reply alike,
    whatever the server value, the context and the world (hence whatever
    calls came before).  The only trace a call leaves is the collaborator's
    own change of its store. *)
Theorem C10_deterministic_stateless `{Externals} (s1 s2 : Server)
    (ctx1 ctx2 : Context) (q : rpc) (w1 w2 : World) :
  (collaborate (service s1) ctx1 q (store w1)).1
    = (collaborate (service s2) ctx2 q (store w2)).1 →
  reply (server.serve s1 ctx1 q) w1 = reply (server.serve s2 ctx2 q) w2
  ∧ after (server.serve s1 ctx1 q) w1
    = {| store := (collaborate (service s1) ctx1 q (store w1)).2;
         logged := logged w1 |}.
Proof.
  intros Hsame. split; [|apply server_after].
  destruct w1 as [st1 l1], w2 as [st2 l2].
  destruct q; simpl in *; open_method; simpl;
    repeat case_match; simplify_eq/=; auto; congruence.
Qed.

(** The same lookup, once on a fresh catalogue and once after a log line
    was written and under another context value of the same state. *)
Lemma C10_witness :
  reply (server.serve memory.srv memory.background
           (GetProductRPC {| pb.GetProductRequest_Id := "000000000000000000000001" |}))
    memory.stocked
  = reply (server.serve memory.srv {| ctx_Err := None |}
           (GetProductRPC {| pb.GetProductRequest_Id := "000000000000000000000001" |}))
      memory.noisy
  ∧ after (server.serve memory.srv memory.background
           (GetProductRPC {| pb.GetProductRequest_Id := "000000000000000000000001" |}))
      memory.stocked
    = memory.stocked.
Proof.
  apply (C10_deterministic_stateless memory.srv memory.srv memory.background
           {| ctx_Err := None |}
           (GetProductRPC {| pb.GetProductRequest_Id := "000000000000000000000001" |})
           memory.stocked memory.noisy).
  reflexivity.
Defined.

(** ** Further properties of the two listings *)

Section Further.
Context `{Externals}.
Implicit Types (s : Server) (ctx : Context) (q : rpc) (w : World) (e : error)
  (a : answer) (st : Store).

Lemma is_validation_iff e :
  is_validation e = true
  ↔ ∃ v : sentinel,
      v ∈ [ErrInvalidSKU; ErrInvalidName; ErrInvalidPrice; ErrInvalidStockQty]
      ∧ errors_Is e v = true.
Proof.
  split.
  - unfold is_validation. rewrite !orb_true_iff.
    intros [[[Hv | Hv] | Hv] | Hv]; eexists; (split; [|exact Hv]);
      repeat constructor.
  - intros (v & Hv & His).
    exact (proj1 (validation_sentinel e v His (validation_member v Hv))).
Qed.

(** The reply of the first listing to a failure, for all six methods. *)
Lemma server_failure s ctx q w a st e :
  collaborate (service s) ctx q (store w) = (a, st) →
  failure a = Some e →
  reply (server.serve s ctx q) w
  = (None,
     Some (statusError (classify q e)
             ((if tests_NotFound q && errors_Is e ErrNotFound
               then not_found_text q else "") ++ Error e))).
Proof.
  intros Hc Hfail. destruct a as [ps tok err]. simpl in Hfail. subst err.
  unfold classify, is_validation.
  destruct q; simpl in Hc; open_method; split_calls;
    try destruct (errors_Is e ErrNotFound); simpl; try reflexivity;
    destruct (_ || _); reflexivity.
Qed.

Lemma server_success s ctx q w a st :
  collaborate (service s) ctx q (store w) = (a, st) →
  failure a = None →
  ∃ m : message, reply (server.serve s ctx q) w = (Some m, None).
Proof.
  intros Hc Hok. destruct a as [ps tok err]. simpl in Hok. subst err.
  destruct q; simpl in Hc; open_method; split_calls; eexists; reflexivity.
Qed.

Lemma server_outcome s ctx q w :
  outcome (reply (server.serve s ctx q) w)
  = match failure (collaborate (service s) ctx q (store w)).1 with
    | None => codes.OK
    | Some e => classify q e
    end.
Proof.
  destruct (collaborate (service s) ctx q (store w)) as [a st] eqn:Hc.
  simpl. destruct (failure a) as [e|] eqn:Hfail.
  - rewrite (server_failure _ _ _ _ _ _ _ Hc Hfail). reflexivity.
  - destruct (server_success _ _ _ _ _ _ Hc Hfail) as [m ->]. reflexivity.
Qed.

Lemma classify_cases q e :
  classify q e = codes.NotFound
  ∨ classify q e = codes.InvalidArgument
  ∨ classify q e = codes.Internal.
Proof.
  unfold classify. destruct (_ && _); auto. destruct (_ && _); auto.
Qed.

(** X1. The classification of the first listing, exactly.  A call ends in
    [OK] if and only if the collaborator succeeded; in [NotFound] if and only
    if the collaborator failed with [ErrNotFound] in one of the three methods
    that test for it ([GetProduct], [UpdateProduct], [GetProductBySKU]); in
    [InvalidArgument] if and only if it failed with one of the four
    validation sentinels in [CreateProduct] or [UpdateProduct]; every other
    call ends in [Internal].  In particular [ErrNotFound] is reported as
    [Internal] by [ListProducts], [CreateProduct] and [DeleteProduct]. *)
Theorem first_listing_classification s ctx q w :
  let a := (collaborate (service s) ctx q (store w)).1 in
  let c := outcome (reply (server.serve s ctx q) w) in
  (c = codes.OK ↔ failure a = None)
  ∧ (c = codes.NotFound
     ↔ ∃ e, failure a = Some e ∧ tests_NotFound q = true
            ∧ errors_Is e ErrNotFound = true)
  ∧ (c = codes.InvalidArgument
     ↔ ∃ e (v : sentinel),
         failure a = Some e ∧ tests_validation q = true
         ∧ v ∈ [ErrInvalidSKU; ErrInvalidName; ErrInvalidPrice;
                ErrInvalidStockQty]
         ∧ errors_Is e v = true)
  ∧ (c = codes.OK ∨ c = codes.NotFound ∨ c = codes.InvalidArgument
     ∨ c = codes.Internal).
Proof.
  simpl. rewrite server_outcome.
  destruct (failure (collaborate (service s) ctx q (store w)).1) as [e|].
  - split; [|split; [|split]].
    + split; [|intros [=]].
      intros Hc. destruct (classify_cases q e) as [Hk | [Hk | Hk]]; congruence.
    + unfold classify. split.
      * destruct (tests_NotFound q) eqn:Ht, (errors_Is e ErrNotFound) eqn:HNF;
          simpl; try (destruct (_ && _); intros [=]).
        intros _. exists e. auto.
      * intros (e' & [= <-] & -> & ->). reflexivity.
    + unfold classify. split.
      * destruct (tests_NotFound q && errors_Is e ErrNotFound); [intros [=]|].
        destruct (tests_validation q) eqn:Ht, (is_validation e) eqn:Hval;
          simpl; try (intros [=]; fail).
        intros _. apply is_validation_iff in Hval as (v & Hv & His).
        exists e, v. auto.
      * intros (e' & v & [= <-] & -> & Hv & His).
        destruct (validation_sentinel e v His (validation_member v Hv))
          as [-> ->].
        rewrite andb_false_r. reflexivity.
    + destruct (classify_cases q e) as [-> | [-> | ->]]; auto.
  - split; [|split; [|split]]; auto.
    + split; reflexivity.
    + split; [intros [=]|]. intros (e & [=] & _).
    + split; [intros [=]|]. intros (e & v & [=] & _).
Qed.

(** X2. A reply holds a response or an error, never both and never neither,
    in both listings: a response without error exactly when the collaborator
    succeeded, an error without response exactly when it failed.  Whatever
    the collaborator hands back next to an error (an entity, a page, a
    token) is dropped. *)
Theorem response_or_error s ctx q w :
  match failure (collaborate (service s) ctx q (store w)).1 with
  | None =>
      (∃ m, reply (server.serve s ctx q) w = (Some m, None))
      ∧ (∃ m, reply (server_dup.serve s ctx q) w = (Some m, None))
  | Some _ =>
      (∃ err, reply (server.serve s ctx q) w = (None, Some err))
      ∧ (∃ err, reply (server_dup.serve s ctx q) w = (None, Some err))
  end.
Proof.
  destruct (collaborate (service s) ctx q (store w)) as [a st] eqn:Hc.
  simpl. destruct (failure a) as [e|] eqn:Hfail.
  - rewrite (server_failure _ _ _ _ _ _ _ Hc Hfail),
      (server_dup_failure _ _ _ _ _ _ _ Hc Hfail).
    split; [eauto|].
    destruct q; try destruct (errors_Is e ErrNotFound); eauto.
  - unfold reply at 2. rewrite (listings_agree_on_success _ _ _ _ _ _ Hc Hfail).
    destruct (server_success _ _ _ _ _ _ Hc Hfail) as [m Hm].
    split; exists m; exact Hm.
Qed.

(** X3. No failure text is lost in the first listing: the error of a failed
    call is always a status error whose message is the text of the
    collaborator's error, preceded by the literal of the method (["pb not
    found: "], for [GetProductBySKU] ["p not found: "]) exactly when the code
    is [NotFound]; a call that succeeded has no error. *)
Theorem first_listing_message s ctx q w :
  match failure (collaborate (service s) ctx q (store w)).1 with
  | None => (reply (server.serve s ctx q) w).2 = None
  | Some e =>
      ∃ c : codes.Code,
        (reply (server.serve s ctx q) w).2
        = Some (statusError c
                  ((if codes.Code_eq_dec c codes.NotFound then not_found_text q else "")
                   ++ Error e))
  end.
Proof.
  destruct (collaborate (service s) ctx q (store w)) as [a st] eqn:Hc.
  simpl. destruct (failure a) as [e|] eqn:Hfail.
  - rewrite (server_failure _ _ _ _ _ _ _ Hc Hfail). simpl.
    exists (classify q e). unfold classify.
    destruct (tests_NotFound q && errors_Is e ErrNotFound); [reflexivity|].
    destruct (tests_validation q && is_validation e); reflexivity.
  - destruct (server_success _ _ _ _ _ _ Hc Hfail) as [m ->]. reflexivity.
Qed.

(** X4. The first listing classifies a failure by the sentinel it is, never
    by its text: two failures of the same method that are the same sentinels
    (however wrapped, whatever their messages) end in the same outcome. *)
Theorem classification_ignores_text s s' ctx ctx' q w w' e e' :
  failure (collaborate (service s) ctx q (store w)).1 = Some e →
  failure (collaborate (service s') ctx' q (store w')).1 = Some e' →
  (∀ v : sentinel, errors_Is e v = errors_Is e' v) →
  outcome (reply (server.serve s ctx q) w)
  = outcome (reply (server.serve s' ctx' q) w').
Proof.
  intros He He' Hsame. rewrite !server_outcome, He, He'.
  unfold classify, is_validation. rewrite !Hsame. reflexivity.
Qed.

(** X5. The second listing on a failure: [GetProduct], [DeleteProduct] and
    [GetProductBySKU] turn [ErrNotFound] into a [NotFound] status whose
    message is the method's literal followed by the error text; every other
    failure of every method comes back as the collaborator's own error,
    validation sentinels and [ErrNotFound] of [UpdateProduct] included. *)
Theorem second_listing_failure s ctx q w e :
  failure (collaborate (service s) ctx q (store w)).1 = Some e →
  reply (server_dup.serve s ctx q) w
  = (None,
     if dup_tests_NotFound q && errors_Is e ErrNotFound
     then Some (statusError codes.NotFound (not_found_text q ++ Error e))
     else Some e).
Proof.
  destruct (collaborate (service s) ctx q (store w)) as [a st] eqn:Hc.
  simpl. intros Hfail. rewrite (server_dup_failure _ _ _ _ _ _ _ Hc Hfail).
  destruct q; simpl; reflexivity.
Qed.

(** X6. What a call of the second listing leaves behind: the store as the
    collaborator's method left it, and the log longer by at most one line,
    the text of the collaborator's error.  The line is written for every
    failure of [ListProducts], [CreateProduct] and [UpdateProduct] and for
    the failures of [DeleteProduct] other than [ErrNotFound]; the two
    lookups and every successful call write none. *)
Theorem second_listing_after s ctx q w :
  after (server_dup.serve s ctx q) w
  = {| store := (collaborate (service s) ctx q (store w)).2;
       logged :=
         app (logged w)
           match failure (collaborate (service s) ctx q (store w)).1 with
           | Some e =>
               if dup_logs q
                  && negb (dup_tests_NotFound q && errors_Is e ErrNotFound)
               then [Error e] else []
           | None => []
           end |}.
Proof.
  destruct w as [st l].
  destruct q; simpl; open_method; simpl; repeat case_match; simplify_eq/=;
    rewrite ?app_nil_r; try reflexivity;
    match goal with
    | Ha : errors_Is ?e _ = _, Hb : negb (errors_Is ?e _) = _ |- _ =>
        rewrite Ha in Hb; discriminate
    end.
Qed.

Lemma status_wraps_prefix (pre : string) (c : codes.Code) e :
  e ≠ statusError c (pre ++ Error e).
Proof.
  intros Heq. destruct e as [v | m | m e | c' m]; try discriminate.
  injection Heq as -> Hm. apply (f_equal String.length) in Hm.
  simpl in Hm. rewrite !length_append in Hm. simpl in Hm.
  rewrite ?length_append in Hm. simpl in Hm. lia.
Qed.

(** X7. Where the two listings agree, exactly: their replies to a call are
    equal if and only if the collaborator succeeded, or failed with
    [ErrNotFound] in [GetProduct] or [GetProductBySKU] (the two methods that
    test for it in both listings).  On every other failure the replies
    differ. *)
Theorem listings_agree_iff s ctx q w :
  let a := (collaborate (service s) ctx q (store w)).1 in
  reply (server.serve s ctx q) w = reply (server_dup.serve s ctx q) w
  ↔ failure a = None
    ∨ ∃ e, failure a = Some e ∧ errors_Is e ErrNotFound = true
           ∧ tests_NotFound q = true ∧ dup_tests_NotFound q = true.
Proof.
  destruct (collaborate (service s) ctx q (store w)) as [a st] eqn:Hc.
  simpl. destruct (failure a) as [e|] eqn:Hfail.
  - rewrite (server_failure _ _ _ _ _ _ _ Hc Hfail),
      (server_dup_failure _ _ _ _ _ _ _ Hc Hfail).
    unfold classify.
    destruct q; simpl; destruct (errors_Is e ErrNotFound) eqn:HNF; simpl;
      try destruct (is_validation e) eqn:Hval; simpl;
      (split;
       [ intros Heq;
         first [ right; exists e; repeat split; assumption
               | exfalso; injection Heq as Heq;
                 first [ discriminate
                       | symmetry in Heq;
                         exact (status_wraps_prefix _ _ _ Heq) ] ]
       | intros [[=] | (e' & [= <-] & HNF' & Ht & Ht')];
         first [ reflexivity | congruence ] ]).
  - unfold reply at 2. rewrite (listings_agree_on_success _ _ _ _ _ _ Hc Hfail).
    split; auto.
Qed.

(** X8. A cancelled or expired collaborator call in the second listing: the
    collaborator's error comes back as it is, so that [errors.Is] still finds
    the cause, and the remote caller sees [DeadlineExceeded] or [Canceled]
    according to it. *)
Theorem second_listing_context_failure s ctx q w e :
  failure (collaborate (service s) ctx q (store w)).1 = Some e →
  is_context_failure e = true →
  reply (server_dup.serve s ctx q) w = (None, Some e)
  ∧ outcome (reply (server_dup.serve s ctx q) w)
    = if errors_Is e DeadlineExceeded then codes.DeadlineExceeded
      else codes.Canceled.
Proof.
  destruct (collaborate (service s) ctx q (store w)) as [a st] eqn:Hc.
  simpl. intros Hfail Hctx. split.
  - rewrite (server_dup_failure _ _ _ _ _ _ _ Hc Hfail).
    destruct (context_failure_unclassified e Hctx) as [_ Hno].
    rewrite (Hno ErrNotFound). destruct q; reflexivity.
  - exact (server_dup_context_failure _ _ _ _ _ _ _ Hc Hfail Hctx).
Qed.

(** X9. The second listing never classifies a failure as [Internal] or
    [InvalidArgument]: when the collaborator's errors carry no gRPC status of
    their own, a call ends in [OK], in [NotFound], or in what an error
    without status becomes ([Unknown], [Canceled], [DeadlineExceeded]). *)
Theorem second_listing_outcomes s ctx q w :
  (∀ e, failure (collaborate (service s) ctx q (store w)).1 = Some e →
        status.FromError e = None) →
  outcome (reply (server_dup.serve s ctx q) w)
  ∈ [codes.OK; codes.NotFound; codes.Unknown; codes.Canceled;
     codes.DeadlineExceeded].
Proof.
  destruct (collaborate (service s) ctx q (store w)) as [a st] eqn:Hc.
  simpl. intros Hplain. destruct (failure a) as [e|] eqn:Hfail.
  - rewrite (server_dup_failure _ _ _ _ _ _ _ Hc Hfail).
    assert (outcome (A:=message) (None, Some e)
            ∈ [codes.OK; codes.NotFound; codes.Unknown; codes.Canceled;
               codes.DeadlineExceeded]) as Hraw.
    { unfold outcome, status.FromContextError. simpl.
      rewrite (Hplain e eq_refl).
      destruct (errors_Is e DeadlineExceeded);
        [|destruct (errors_Is e Canceled)]; repeat constructor. }
    destruct q; try destruct (errors_Is e ErrNotFound);
      first [exact Hraw | repeat constructor].
  - unfold reply. rewrite (listings_agree_on_success _ _ _ _ _ _ Hc Hfail).
    destruct (server_success _ _ _ _ _ _ Hc Hfail) as [m Hm].
    unfold reply in Hm. rewrite Hm. repeat constructor.
Qed.


Lemma server_dup_store s ctx q w :
  store (after (server_dup.serve s ctx q) w)
  = (collaborate (service s) ctx q (store w)).2.
Proof.
  destruct w as [st l].
  destruct q; simpl; open_method; simpl; repeat case_match; simplify_eq/=;
    reflexivity.
Qed.

Lemma serve_error_iff s ctx q w :
  ((reply (server.serve s ctx q) w).2 = None
   ↔ failure (collaborate (service s) ctx q (store w)).1 = None)
  ∧ ((reply (server_dup.serve s ctx q) w).2 = None
     ↔ failure (collaborate (service s) ctx q (store w)).1 = None).
Proof.
  destruct (collaborate (service s) ctx q (store w)) as [a st] eqn:Hc.
  simpl. destruct (failure a) as [e|] eqn:Hfail.
  - rewrite (server_failure _ _ _ _ _ _ _ Hc Hfail),
      (server_dup_failure _ _ _ _ _ _ _ Hc Hfail).
    split; (split; [|intros [=]]);
      destruct q; simpl; try destruct (errors_Is e ErrNotFound); intros [=].
  - unfold reply at 2. rewrite (listings_agree_on_success _ _ _ _ _ _ Hc Hfail).
    destruct (server_success _ _ _ _ _ _ Hc Hfail) as [m Hm].
    unfold reply in *. rewrite Hm. split; split; reflexivity.
Qed.

Lemma session_cons (serve : Context → rpc → M (option message * option error))
    ctx q (rest : list (Context * rpc)) w :
  session serve ((ctx, q) :: rest) w
  = let '(out, w1) := serve ctx q w in
    let '(outs, w2) := session serve rest w1 in
    (out :: outs, w2).
Proof. reflexivity. Qed.

(** A session of any dispatch that leaves the collaborator's store and
    answers with an error exactly on a failure. *)
Lemma session_follows (serve : Context → rpc → M (option message * option error))
    (c : service.Service) :
  (∀ ctx q w,
     store (after (serve ctx q) w) = (collaborate c ctx q (store w)).2) →
  (∀ ctx q w,
     (reply (serve ctx q) w).2 = None
     ↔ failure (collaborate c ctx q (store w)).1 = None) →
  ∀ (calls : list (Context * rpc)) w,
    store (after (session serve calls) w) = (collaborations c calls (store w)).2
    ∧ Forall2 (fun out a => out.2 = None ↔ failure a = None)
        (reply (session serve calls) w) (collaborations c calls (store w)).1.
Proof.
  intros Hstore Herr calls.
  induction calls as [|[ctx q] rest IH]; intros w.
  - split; [reflexivity | constructor].
  - unfold after, reply in *. rewrite session_cons. simpl.
    specialize (Hstore ctx q w). specialize (Herr ctx q w).
    destruct (serve ctx q w) as [out w1]. simpl in Hstore, Herr.
    specialize (IH w1). rewrite Hstore in IH.
    destruct (collaborate c ctx q (store w)) as [a st1]. simpl in *.
    destruct (session serve rest w1) as [outs w2].
    destruct (collaborations c rest st1) as [answers st2]. simpl in *.
    destruct IH as [IH1 IH2]. split; [exact IH1 | constructor; assumption].
Qed.

Lemma session_quiet s (calls : list (Context * rpc)) w :
  logged (after (session (server.serve s) calls) w) = logged w.
Proof.
  revert w. induction calls as [|[ctx q] rest IH]; intros w; [reflexivity|].
  unfold after in *. rewrite session_cons.
  pose proof (server_after s ctx q w) as Hafter. unfold after in Hafter.
  destruct (server.serve s ctx q w) as [out w1]. simpl in Hafter.
  specialize (IH w1). destruct (session (server.serve s) rest w1) as [outs w2].
  simpl in *. rewrite IH, Hafter. reflexivity.
Qed.

(** X11. The adapter is transparent to the collaborator's state.  Whatever
    calls a server built by [NewProductCatalogServer] serves one after the
    other, each under its own context, the store they leave is the one the
    same calls leave when made on the injected collaborator directly, in
    both listings; each call is answered with an error exactly when the
    collaborator failed on it, on the store the earlier calls left; and the
    first listing has written nothing to the log. *)
Theorem session_transparent (c : service.Service)
    (calls : list (Context * rpc)) w :
  let s := NewProductCatalogServer c in
  let direct := collaborations c calls (store w) in
  after (session (server.serve s) calls) w
    = {| store := direct.2; logged := logged w |}
  ∧ store (after (session (server_dup.serve s) calls) w) = direct.2
  ∧ Forall2 (fun out a => out.2 = None ↔ failure a = None)
      (reply (session (server.serve s) calls) w) direct.1
  ∧ Forall2 (fun out a => out.2 = None ↔ failure a = None)
      (reply (session (server_dup.serve s) calls) w) direct.1.
Proof.
  simpl.
  destruct (session_follows (server.serve (NewProductCatalogServer c)) c
              (fun ctx q w =>
                 f_equal store (server_after (NewProductCatalogServer c) ctx q w))
              (fun ctx q w =>
                 proj1 (serve_error_iff (NewProductCatalogServer c) ctx q w))
              calls w) as [Hstore Hout].
  destruct (session_follows (server_dup.serve (NewProductCatalogServer c)) c
              (server_dup_store (NewProductCatalogServer c))
              (fun ctx q w =>
                 proj2 (serve_error_iff (NewProductCatalogServer c) ctx q w))
              calls w) as [Hstore' Hout'].
  repeat split; try assumption.
  pose proof (session_quiet (NewProductCatalogServer c) calls w) as Hlog.
  destruct (after (session (server.serve (NewProductCatalogServer c)) calls) w)
    as [st l].
  simpl in *. congruence.
Qed.

End Further.

(** *** Witnesses on the in-memory catalogue *)

(** A missing product reported by the catalogue (the sentinel wrapped in a
    message) and by a collaborator that is out of order (the bare
    sentinel). *)
Lemma classification_ignores_text_witness :
  outcome (reply (server.serve memory.srv memory.background
             (GetProductRPC {| pb.GetProductRequest_Id := "000000000000000000000000" |}))
             memory.empty)
  = outcome (reply (server.serve
                      (NewProductCatalogServer (failing (errValue ErrNotFound)))
                      memory.cancelled
             (GetProductRPC {| pb.GetProductRequest_Id := "000000000000000000000000" |}))
             memory.stocked).
Proof.
  apply (classification_ignores_text memory.srv
           (NewProductCatalogServer (failing (errValue ErrNotFound)))
           memory.background memory.cancelled
           (GetProductRPC {| pb.GetProductRequest_Id := "000000000000000000000000" |})
           memory.empty memory.stocked
           (wrapError "000000000000000000000000: product not found"
              (errValue ErrNotFound))
           (errValue ErrNotFound));
    [reflexivity | reflexivity | intros v; reflexivity].
Defined.

(** An update aimed at a product the catalogue does not hold. *)
Lemma second_listing_failure_witness :
  reply (server_dup.serve memory.srv memory.background
           (UpdateProductRPC (H:=memory.ext) memory.stray)) memory.stocked
  = (None, Some (wrapError "000000000000000000000009: product not found"
                   (errValue ErrNotFound))).
Proof.
  apply (second_listing_failure memory.srv memory.background
           (UpdateProductRPC (H:=memory.ext) memory.stray) memory.stocked
           (wrapError "000000000000000000000009: product not found"
              (errValue ErrNotFound))).
  reflexivity.
Defined.

(** A listing under an expired context. *)
Lemma second_listing_context_failure_witness :
  reply (server_dup.serve memory.srv memory.expired
           (ListProductsRPC {| pb.ListProductsRequest_Filter := None;
                               pb.ListProductsRequest_Page := 1;
                               pb.ListProductsRequest_PageSize := 10 |}))
    memory.stocked = (None, Some (errValue DeadlineExceeded))
  ∧ outcome (reply (server_dup.serve memory.srv memory.expired
           (ListProductsRPC {| pb.ListProductsRequest_Filter := None;
                               pb.ListProductsRequest_Page := 1;
                               pb.ListProductsRequest_PageSize := 10 |}))
    memory.stocked) = codes.DeadlineExceeded.
Proof.
  apply (second_listing_context_failure memory.srv memory.expired
           (ListProductsRPC {| pb.ListProductsRequest_Filter := None;
                               pb.ListProductsRequest_Page := 1;
                               pb.ListProductsRequest_PageSize := 10 |})
           memory.stocked (errValue DeadlineExceeded)); reflexivity.
Defined.

(** The draft without SKU. *)
Lemma second_listing_outcomes_witness :
  outcome (reply (server_dup.serve memory.srv memory.background
             (CreateProductRPC
                {| pb.CreateProductRequest_Product := Some memory.no_sku |}))
             memory.empty)
  ∈ [codes.OK; codes.NotFound; codes.Unknown; codes.Canceled;
     codes.DeadlineExceeded].
Proof.
  apply (second_listing_outcomes memory.srv memory.background
           (CreateProductRPC
              {| pb.CreateProductRequest_Product := Some memory.no_sku |})
           memory.empty).
  intros e He. vm_compute in He. injection He as <-. reflexivity.
Defined.


(** ** The identifier on the wire *)






Lemma hexdigit_listed (n : nat) :
  n < 16 → is_Some (unhexdigit (primitive.hexdigit n)).
Proof.
  intros Hn. do 16 (destruct n as [|n]; [eexists; reflexivity|]). lia.
Qed.

Lemma EncodeToString_digits (l : list Byte.byte) :
  Forall (fun c => is_Some (unhexdigit c))
    (list_ascii_of_string (primitive.EncodeToString l)).
Proof.
  induction l as [|b l IH]; [constructor|].
  pose proof (Byte.to_nat_bounded b) as Hb.
  assert (Byte.to_nat b / 16 < 16) as Hhi
    by (apply Nat.Div0.div_lt_upper_bound; lia).
  assert (Byte.to_nat b mod 16 < 16) as Hlo
    by (apply Nat.mod_upper_bound; lia).
  cbn [primitive.EncodeToString list_ascii_of_string].
  repeat constructor; auto using hexdigit_listed.
Qed.

(** X13. The external identifier of a projected product is made of
    lower-case hexadecimal digits only, two per byte of the entity's
    identifier: twenty-four for a twelve-byte [ObjectID]. *)
Theorem projected_Id_format (p : service.Product) (q : pb.Product) :
  projects p q →
  primitive.wf (service.ID p) →
  String.length (pb.Id q) = 24
  ∧ Forall (fun c => is_Some (unhexdigit c)) (list_ascii_of_string (pb.Id q)).
Proof.
  intros (-> & _) Hwf. split; [exact (Hex_wf _ Hwf)|].
  apply EncodeToString_digits.
Qed.

Lemma projected_Id_format_witness :
  String.length "000000000000000000000001" = 24
  ∧ Forall (fun c => is_Some (unhexdigit c))
      (list_ascii_of_string "000000000000000000000001").
Proof.
  apply (projected_Id_format memory.stored
           {| pb.Id := "000000000000000000000001"; pb.Sku := "W-1";
              pb.Name := "Widget"; pb.Description := "a widget";
              pb.Price := 9.99%float; pb.StockQuantity := 5%Z;
              pb.Category := "tools"; pb.ImageUrl := "http://img/w1.png";
              pb.IsActive := true;
              pb.Attributes := {[ "colour" := "red" ]} |});
    [unfold projects; simpl; repeat split; reflexivity | reflexivity].
Defined.
